(** * Figma-to-Material: the design-tree analysis engine of [server/figmaApi.ts]

    A shallow embedding of the classification and property-extraction pass
    ([analyzeFigmaComponents] and everything it calls) together with the
    properties the specification states about it.

    Modelling conventions.
    - A JavaScript number is an IEEE-754 binary64 value: Rocq's primitive
      [float].  [undefined] used as a number is [nan].
    - A JavaScript string is a [string]; [toLowerCase] folds the ASCII letters
      (node names are taken to be ASCII).
    - An object field that may be missing is an [option]; [None] is
      [undefined].  The input is taken to be well-typed JSON: a field that
      is present has the type the code expects of it (a name is a string,
      [children] a list of nodes, [fills] a list of paints); what varies is
      which fields are present.
    - An exception is a value of [exn]; code that may throw returns a
      [result].  The message of a [TypeError] is the one V8 prints.
    - The untyped property bag ([Record<string, any>]) is a [gmap] from keys
      to [JSValue]s, so a key holding [null] differs from a missing key. *)

From Stdlib Require Import ZArith String Ascii List Bool Floats Lia.
From stdpp Require Import base option list gmap strings.

Set Warnings "-inexact-float,-register-all".

Local Open Scope string_scope.
Local Open Scope list_scope.

(* ===================================================================== *)
(** ** Exceptions and the result monad *)
(* ===================================================================== *)

Inductive exn : Type :=
| TypeError (msg : string)
| Error (msg : string).

Definition message (e : exn) : string :=
  match e with TypeError m => m | Error m => m end.

Inductive result (A : Type) : Type :=
| OK (a : A)
| Throw (e : exn).
Arguments OK {A} a.
Arguments Throw {A} e.

Definition bind {A B : Type} (m : result A) (k : A -> result B) : result B :=
  match m with
  | OK a => k a
  | Throw e => Throw e
  end.

Notation "'let*' x ':=' m 'in' k" := (bind m (fun x => k))
  (at level 10, x name, m at level 100, k at level 200).

Definition is_ok {A : Type} (m : result A) : Prop := exists a, m = OK a.
Definition throws {A : Type} (m : result A) : Prop := exists e, m = Throw e.

(** Reading [.prop] of [undefined]. *)
Definition undefined_read {A : Type} (prop : string) : result A :=
  Throw (TypeError ("Cannot read properties of undefined (reading '" ++ prop ++ "')")).

(** [a || b] and [a && b] where the right operand may throw and is evaluated
    only when the left one does not decide. *)
Definition orM (a : bool) (b : result bool) : result bool :=
  if a then OK true else b.
Definition andM (a : bool) (b : result bool) : result bool :=
  if a then b else OK false.

(** [Array.prototype.some], [find] and [filter] with a callback that may
    throw: elements are visited in order and the first exception escapes. *)
Fixpoint someM {A : Type} (p : A -> result bool) (l : list A) : result bool :=
  match l with
  | [] => OK false
  | x :: tl => let* hit := p x in if hit then OK true else someM p tl
  end.

Fixpoint findM {A : Type} (p : A -> result bool) (l : list A) : result (option A) :=
  match l with
  | [] => OK None
  | x :: tl => let* hit := p x in if hit then OK (Some x) else findM p tl
  end.

Fixpoint filterM {A : Type} (p : A -> result bool) (l : list A) : result (list A) :=
  match l with
  | [] => OK []
  | x :: tl =>
      let* hit := p x in
      let* rest := filterM p tl in
      OK (if hit then x :: rest else rest)
  end.

(* ===================================================================== *)
(** ** Strings *)
(* ===================================================================== *)

Definition lower_ascii (c : ascii) : ascii :=
  let n := N_of_ascii c in
  if (65 <=? n)%N && (n <=? 90)%N then ascii_of_N (n + 32) else c.

Fixpoint toLowerCase (s : string) : string :=
  match s with
  | EmptyString => EmptyString
  | String c tl => String (lower_ascii c) (toLowerCase tl)
  end.

(** [s.includes(sub)] *)
Fixpoint includes (s sub : string) : bool :=
  String.prefix sub s ||
  match s with
  | EmptyString => false
  | String _ tl => includes tl sub
  end.

(** White space removed by [trim] (the ASCII part of it). *)
Definition is_whitespace (c : ascii) : bool :=
  let n := N_of_ascii c in
  ((9 <=? n)%N && (n <=? 13)%N) || (n =? 32)%N.

Fixpoint trimStart (s : string) : string :=
  match s with
  | String c tl => if is_whitespace c then trimStart tl else s
  | EmptyString => EmptyString
  end.

Fixpoint trimEnd (s : string) : string :=
  match s with
  | EmptyString => EmptyString
  | String c tl =>
      match trimEnd tl with
      | EmptyString => if is_whitespace c then EmptyString else String c EmptyString
      | tl' => String c tl'
      end
  end.

Definition trim (s : string) : string := trimEnd (trimStart s).

Fixpoint drop_chars (n : nat) (s : string) : string :=
  match n, s with
  | O, _ => s
  | S n', String _ tl => drop_chars n' tl
  | S _, EmptyString => EmptyString
  end.

(** [name.replace(/option|item/i, '')]: the leftmost match is removed, and at
    one position the alternative [option] is tried before [item]. *)
Fixpoint replace_option_item (s : string) : string :=
  if String.prefix "option" (toLowerCase s) then drop_chars 6 s
  else if String.prefix "item" (toLowerCase s) then drop_chars 4 s
  else match s with
       | EmptyString => EmptyString
       | String c tl => String c (replace_option_item tl)
       end.

(** A string used as a condition: empty (and [undefined]) is falsy. *)
Definition truthy_string (s : option string) : bool :=
  match s with
  | Some EmptyString | None => false
  | Some _ => true
  end.

(** [x.name.toLowerCase()] *)
Definition name_toLowerCase (name : option string) : result string :=
  match name with
  | Some s => OK (toLowerCase s)
  | None => undefined_read "toLowerCase"
  end.

(** [x === 'LITERAL'] for a field that may be missing. *)
Definition is_str (x : option string) (lit : string) : bool :=
  match x with
  | Some s => String.eqb s lit
  | None => false
  end.

(* ===================================================================== *)
(** ** Numbers *)
(* ===================================================================== *)

Definition number : Set := float.

(** [ToNumber] of a field that may be [undefined]. *)
Definition toNumber (x : option number) : number :=
  match x with Some v => v | None => nan end.

(** A number used as a condition: [0], [-0] and [NaN] are falsy. *)
Definition truthy_number (x : option number) : bool :=
  match x with
  | Some v => negb (PrimFloat.eqb v 0) && negb (is_nan v)
  | None => false
  end.

(** [x || d] on numbers *)
Definition number_or (x : option number) (d : number) : number :=
  if truthy_number x then toNumber x else d.

(** [x < y] and [x > y]; both are false when an operand is [NaN]. *)
Definition num_lt (x y : number) : bool := PrimFloat.ltb x y.
Definition num_gt (x y : number) : bool := PrimFloat.ltb y x.

Definition is_neg_zero (x : number) : bool := is_zero x && get_sign x.

(** [Math.max] and [Math.min] of two numbers: [NaN] is contagious and [+0] is
    larger than [-0]. *)
Definition Math_max2 (x y : number) : number :=
  if is_nan x || is_nan y then nan
  else if PrimFloat.ltb x y then y
  else if PrimFloat.ltb y x then x
  else if is_neg_zero x then y else x.

Definition Math_min2 (x y : number) : number :=
  if is_nan x || is_nan y then nan
  else if PrimFloat.ltb x y then x
  else if PrimFloat.ltb y x then y
  else if is_neg_zero x then x else y.

Definition Math_max (x y z : number) : number := Math_max2 (Math_max2 x y) z.
Definition Math_min (x y z : number) : number := Math_min2 (Math_min2 x y) z.

(** The integer [n] as a number (exact below [2^53]); [neg] chooses the sign
    of a zero. *)
Definition number_of_Z (neg : bool) (n : Z) : number :=
  match n with
  | Z0 => if neg then neg_zero else zero
  | Zpos p => SF2Prim (S754_finite false p 0)
  | Zneg p => SF2Prim (S754_finite true p 0)
  end.

(** [Math.round]: the nearest integer, a tie going to the one closer to
    [+Infinity].  A finite [x] is [v * 2^e] for integers [v] and [e]; for
    [e < 0] the result is [floor (x + 1/2) = floor ((2v + 2^-e) / 2^(1-e))],
    computed exactly on integers. *)
Definition Math_round (x : number) : number :=
  match Prim2SF x with
  | S754_finite s m e =>
      if (0 <=? e)%Z then x
      else
        let v := if s then Zneg m else Zpos m in
        number_of_Z s (Z.shiftr (2 * v + 2 ^ (- e)) (1 - e))
  | _ => x
  end.

(* ===================================================================== *)
(** ** The raw design tree *)
(* ===================================================================== *)

Module Color.
Record t : Set := mk { r : number; g : number; b : number; a : option number }.
End Color.

(** An entry of [fills] or [strokes]. *)
Module Paint.
Record t : Set := mk {
  type : option string;
  visible : option bool;
  opacity : option number;
  color : option Color.t
}.
(** [paint.visible !== false] *)
Definition shown (p : t) : bool :=
  match visible p with Some false => false | _ => true end.
End Paint.

Module Vector.
Record t : Set := mk { x : option number; y : option number }.
End Vector.

Module Effect.
Record t : Set := mk {
  type : option string;
  visible : option bool;
  offset : option Vector.t;
  radius : option number;
  color : option Color.t
}.
(** [effect.type === 'DROP_SHADOW' && effect.visible !== false] *)
Definition is_drop_shadow (e : t) : bool :=
  is_str (type e) "DROP_SHADOW" &&
  match visible e with Some false => false | _ => true end.
End Effect.

Module Rect.
Record t : Set := mk { width : option number; height : option number }.
End Rect.

Module TypeStyle.
Record t : Set := mk {
  fontSize : option number;
  fontWeight : option number;
  lineHeight : option number;
  letterSpacing : option number;
  textAlignHorizontal : option string
}.
End TypeStyle.

Module Node.
Inductive t : Set := mk {
  id : option string;
  name : option string;
  type : option string;
  componentId : option string;
  children : option (list t);
  characters : option string;
  absoluteBoundingBox : option Rect.t;
  cornerRadius : option number;
  opacity : option number;
  fills : option (list Paint.t);
  strokes : option (list Paint.t);
  effects : option (list Effect.t);
  style : option TypeStyle.t;
  x : option number;
  y : option number;
  width : option number;
  height : option number;
  paddingLeft : option number;
  paddingRight : option number;
  paddingTop : option number;
  paddingBottom : option number
}.

(** The direct children, none when the field is missing. *)
Definition kids (n : t) : list t :=
  match children n with Some cs => cs | None => [] end.

(** A node that has only the given fields. *)
Definition bare (id name type : option string) (children : option (list t)) : t :=
  mk id name type None children None None None None None None None None
     None None None None None None None None.
End Node.

(** The argument of [analyzeFigmaComponents]. *)
Module FigmaData.
Record t : Set := mk {
  id : option string;
  name : option string;
  document : option Node.t
}.
End FigmaData.

(* ===================================================================== *)
(** ** The analysis result *)
(* ===================================================================== *)

Inductive SupportStatus : Set := supported | partial | unsupported.

Definition SupportStatus_eqb (s1 s2 : SupportStatus) : bool :=
  match s1, s2 with
  | supported, supported | partial, partial | unsupported, unsupported => true
  | _, _ => false
  end.

(** The values a property of a component can hold. *)
Inductive JSValue : Set :=
| JUndefined
| JNull
| JBool (b : bool)
| JString (s : string)
| JArray (items : list JSValue).

(** A value used as a condition. *)
Definition truthy (v : JSValue) : bool :=
  match v with
  | JUndefined | JNull | JBool false | JString EmptyString => false
  | _ => true
  end.

(** The text of a node as a value: [undefined] when the field is missing. *)
Definition text_value (s : option string) : JSValue :=
  match s with Some c => JString c | None => JUndefined end.

Module RGB.
Record t : Set := mk { r : number; g : number; b : number }.
End RGB.

Module RGBA.
Record t : Set := mk { r : number; g : number; b : number; a : number }.
End RGBA.

Module Padding.
Record t : Set := mk { left : number; right : number; top : number; bottom : number }.
End Padding.

Module Typography.
Record t : Set := mk {
  fontSize : option number;
  fontWeight : option number;
  lineHeight : option number;
  letterSpacing : option number;
  textAlign : option string
}.
End Typography.

Module BoxShadow.
Record t : Set := mk { offsetX : number; offsetY : number; radius : number; color : RGBA.t }.
End BoxShadow.

(** The style bag; a key that was never set is [None]. *)
Module Styles.
Record t : Set := mk {
  width : option number;
  height : option number;
  borderRadius : option number;
  padding : option Padding.t;
  typography : option Typography.t;
  backgroundColor : option RGB.t;
  borderColor : option RGB.t;
  boxShadow : option BoxShadow.t
}.
End Styles.

Module FigmaComponent.
Record t : Type := mk {
  figmaId : option string;
  name : option string;
  type : string;
  angularComponent : option string;
  supportStatus : SupportStatus;
  properties : gmap string JSValue;
  styles : Styles.t
}.
End FigmaComponent.

Module Stats.
Record t : Set := mk {
  totalComponents : nat;
  frames : Z;
  supported : nat;
  partial : nat;
  unsupported : nat
}.
End Stats.

Module FigmaFileResponse.
Record t : Type := mk {
  fileKey : string;
  fileName : string;
  components : list FigmaComponent.t;
  stats : Stats.t
}.
End FigmaFileResponse.

(* ===================================================================== *)
(** ** Catalogs *)
(* ===================================================================== *)

(** The catalogs are objects read with [Object.entries], which lists the keys
    in the order they were written. *)
Definition BUTTON_VARIANTS : list (string * string) :=
  [ ("primary", "raised"); ("secondary", "stroked"); ("text", "basic");
    ("icon", "icon"); ("flat", "flat") ].

Definition INPUT_APPEARANCES : list (string * string) :=
  [ ("outline", "outline"); ("standard", "standard"); ("fill", "fill") ].

Definition COMPONENT_TYPE_IDS : list (string * list string) :=
  [ ("Button", ["button-primary"; "button-secondary"; "button-flat"; "button-icon"]);
    ("Input", ["input-standard"; "input-outline"; "input-fill"; "text-field"]);
    ("Card", ["card-standard"; "card-elevated"; "card-outlined"]);
    ("Checkbox", ["checkbox-standard"; "checkbox-indeterminate"]);
    ("Radio", ["radio-button"; "radio-option"]);
    ("Select", ["select-standard"; "dropdown"; "combobox"]);
    ("DatePicker", ["date-picker"; "calendar-input"]);
    ("Tabs", ["tabs-standard"; "tab-bar"]);
    ("Table", ["table-standard"; "data-table"]) ].

(** [ids.includes(id)] on an array of strings *)
Definition array_includes (ids : list string) (id : string) : bool :=
  existsb (String.eqb id) ids.

(** The loop [for (const [key, value] of Object.entries(table))] that returns
    [value] at the first key satisfying [hit]. *)
Fixpoint first_entry {V : Type} (hit : string -> V -> bool) (table : list (string * V))
  : option (string * V) :=
  match table with
  | [] => None
  | (k, v) :: tl => if hit k v then Some (k, v) else first_entry hit tl
  end.

(* ===================================================================== *)
(** ** Component-type classifier *)
(* ===================================================================== *)

(** The names that make a frame a candidate. *)
Definition candidate_keywords : list string :=
  [ "button"; "input"; "field"; "card"; "checkbox"; "select"; "date";
    "table"; "tab"; "carousel" ].

Definition isComponentCandidate (node : Node.t) : result bool :=
  if is_str (Node.type node) "COMPONENT" || is_str (Node.type node) "INSTANCE" then
    OK true
  else if is_str (Node.type node) "FRAME" then
    let* nameLower := name_toLowerCase (Node.name node) in
    OK (includes nameLower "button" ||
        includes nameLower "input" ||
        includes nameLower "field" ||
        includes nameLower "card" ||
        includes nameLower "checkbox" ||
        includes nameLower "select" ||
        includes nameLower "date" ||
        includes nameLower "table" ||
        includes nameLower "tab" ||
        includes nameLower "carousel")
  else OK false.

Definition hasButtonLikeStructure (node : Node.t) : result bool :=
  let hasButtonShape :=
    truthy_number (Node.cornerRadius node) &&
    num_gt (toNumber (Node.cornerRadius node)) 0%float in
  let* lower1 := name_toLowerCase (Node.name node) in
  let* isClickable :=
    orM (includes lower1 "click")
        (let* lower2 := name_toLowerCase (Node.name node) in
         OK (includes lower2 "action")) in
  let hasLimitedSize :=
    match Node.absoluteBoundingBox node with
    | Some box =>
        num_lt (toNumber (Rect.width box)) 300%float &&
        num_lt (toNumber (Rect.height box)) 100%float
    | None => false
    end in
  OK (hasButtonShape && (isClickable || hasLimitedSize)).

(** [child.characters?.length < 30] *)
Definition short_text (characters : option string) : bool :=
  match characters with
  | Some s => Nat.ltb (String.length s) 30
  | None => false
  end.

Definition hasInputFieldStructure (node : Node.t) : result bool :=
  match Node.children node with
  | None => OK false
  | Some children =>
      let* hasLabel :=
        someM (fun child =>
                 andM (is_str (Node.type child) "TEXT")
                      (let* lower := name_toLowerCase (Node.name child) in
                       OK (includes lower "label" || short_text (Node.characters child))))
              children in
      let* hasInputArea :=
        someM (fun child =>
                 orM (is_str (Node.type child) "RECTANGLE")
                     (andM (is_str (Node.type child) "FRAME")
                           (let* lower := name_toLowerCase (Node.name child) in
                            OK (includes lower "input"))))
              children in
      OK (hasLabel && hasInputArea)
  end.

Definition hasCardStructure (node : Node.t) : bool :=
  if negb (is_str (Node.type node) "FRAME") && negb (is_str (Node.type node) "GROUP") then
    false
  else
    let hasElevation :=
      match Node.effects node with
      | Some effects => existsb Effect.is_drop_shadow effects
      | None => false
      end in
    let hasCardContent :=
      match Node.children node with
      | Some children =>
          Nat.ltb 1 (length children) &&
          existsb (fun child => is_str (Node.type child) "TEXT") children
      | None => false
      end in
    hasElevation && hasCardContent.

(** The catalog loop at the head of [detectComponentType]. *)
Definition catalog_type (componentId : option string) : option string :=
  if truthy_string componentId then
    match componentId with
    | Some cid =>
        option_map fst (first_entry (fun _ ids => array_includes ids cid) COMPONENT_TYPE_IDS)
    | None => None
    end
  else None.

Definition detectComponentType (node : Node.t) : result string :=
  let* nameLower := name_toLowerCase (Node.name node) in
  match catalog_type (Node.componentId node) with
  | Some type => OK type
  | None =>
      if includes nameLower "button" then OK "Button"
      else if includes nameLower "input" || includes nameLower "field" ||
              includes nameLower "text field" then OK "Input"
      else if includes nameLower "card" then OK "Card"
      else if includes nameLower "check" || includes nameLower "checkbox" then OK "Checkbox"
      else if includes nameLower "select" || includes nameLower "dropdown" ||
              includes nameLower "combo" then OK "Select"
      else if includes nameLower "date" || includes nameLower "calendar" then OK "DatePicker"
      else if includes nameLower "tab" && negb (includes nameLower "table") then OK "Tabs"
      else if includes nameLower "table" || includes nameLower "data table" then OK "Table"
      else if includes nameLower "carousel" || includes nameLower "slider" then OK "Carousel"
      else
        let* buttonLike := hasButtonLikeStructure node in
        if buttonLike then OK "Button"
        else
          let* inputLike := hasInputFieldStructure node in
          if inputLike then OK "Input"
          else if hasCardStructure node then OK "Card"
          else OK "Custom"
  end.

(* ===================================================================== *)
(** ** Property extractor *)
(* ===================================================================== *)

(** [node.effects?.some(e => e.type === 'DROP_SHADOW' && e.visible !== false)] *)
Definition has_drop_shadow (node : Node.t) : bool :=
  match Node.effects node with
  | Some effects => existsb Effect.is_drop_shadow effects
  | None => false
  end.

(** [fill.visible !== false && fill.opacity > 0] *)
Definition solid_fill (fill : Paint.t) : bool :=
  Paint.shown fill && num_gt (toNumber (Paint.opacity fill)) 0%float.

(** [node.fills?.some(fill => fill.visible !== false && fill.opacity > 0)] *)
Definition has_fill (node : Node.t) : bool :=
  match Node.fills node with
  | Some fills => existsb solid_fill fills
  | None => false
  end.

(** [node.strokes?.some(stroke => stroke.visible !== false)] *)
Definition has_stroke (node : Node.t) : bool :=
  match Node.strokes node with
  | Some strokes => existsb Paint.shown strokes
  | None => false
  end.

(** The value found by name in a catalog: by the component id when there is
    one, then by the lowered node name. *)
Definition by_id (table : list (string * string)) (componentId : option string)
  : option string :=
  if truthy_string componentId then
    match componentId with
    | Some cid => option_map snd (first_entry (fun key _ => includes cid key) table)
    | None => None
    end
  else None.

Definition by_name (table : list (string * string)) (nameLower : string) : option string :=
  option_map snd (first_entry (fun key _ => includes nameLower key) table).

Definition determineButtonVariant (node : Node.t) : result string :=
  match by_id BUTTON_VARIANTS (Node.componentId node) with
  | Some value => OK value
  | None =>
      let* nameLower := name_toLowerCase (Node.name node) in
      match by_name BUTTON_VARIANTS nameLower with
      | Some value => OK value
      | None =>
          if has_drop_shadow node then OK "raised"
          else
            let hasFill := has_fill node in
            let hasStroke := has_stroke node in
            let* stroked :=
              andM hasStroke
                (orM (negb hasFill)
                   match Node.fills node with
                   | Some fills =>
                       OK (forallb (fun fill =>
                                      num_lt (toNumber (Paint.opacity fill)) 0.2%float)
                                   fills)
                   | None => undefined_read "every"
                   end) in
            if stroked then OK "stroked"
            else if hasFill then OK "flat"
            else OK "basic"
      end
  end.

Definition determineColorTheme (node : Node.t) : result string :=
  let* nameLower := name_toLowerCase (Node.name node) in
  if includes nameLower "primary" then OK "primary"
  else if includes nameLower "accent" || includes nameLower "secondary" then OK "accent"
  else if includes nameLower "warn" || includes nameLower "danger" ||
          includes nameLower "error" then OK "warn"
  else
    OK match Node.fills node with
       | Some ((_ :: _) as fills) =>
           match List.find solid_fill fills with
           | Some fill =>
               match Paint.color fill with
               | Some c =>
                   let r := Color.r c in
                   let g := Color.g c in
                   let b := Color.b c in
                   if num_gt r 0.7%float && num_lt g 0.3%float && num_lt b 0.3%float
                   then "warn"
                   else if num_lt r 0.3%float && num_lt g 0.5%float && num_gt b 0.7%float
                   then "primary"
                   else if num_gt r 0.7%float && num_gt g 0.5%float && num_lt b 0.3%float
                   then "accent"
                   else "primary"
               | None => "primary"
               end
           | None => "primary"
           end
       | _ => "primary"
       end.

(** [(max - min) / max] of the three channels, [0] when [max === 0]. *)
Definition saturation (c : Color.t) : number :=
  let max := Math_max (Color.r c) (Color.g c) (Color.b c) in
  let min := Math_min (Color.r c) (Color.g c) (Color.b c) in
  if PrimFloat.eqb max 0%float then 0%float else ((max - min) / max)%float.

Definition isNodeDisabled (node : Node.t) : result bool :=
  let* nameLower := name_toLowerCase (Node.name node) in
  if includes nameLower "disabled" then OK true
  else if truthy_number (Node.opacity node) &&
          num_lt (toNumber (Node.opacity node)) 0.5%float then OK true
  else
    OK match Node.fills node with
       | Some ((_ :: _) as fills) =>
           match List.find Paint.shown fills with
           | Some fill =>
               match Paint.color fill with
               | Some c => if num_lt (saturation c) 0.1%float then true else false
               | None => false
               end
           | None => false
           end
       | _ => false
       end.

Definition hasChildIcon (node : Node.t) : result bool :=
  match Node.children node with
  | None => OK false
  | Some children =>
      someM (fun child =>
               orM (is_str (Node.type child) "VECTOR")
                   (let* lower := name_toLowerCase (Node.name child) in
                    OK (includes lower "icon" ||
                        (truthy_number (Node.width child) &&
                         truthy_number (Node.height child) &&
                         PrimFloat.eqb (toNumber (Node.width child))
                                       (toNumber (Node.height child)) &&
                         num_lt (toNumber (Node.width child)) 24%float))))
            children
  end.

Definition determineInputAppearance (node : Node.t) : result string :=
  match by_id INPUT_APPEARANCES (Node.componentId node) with
  | Some value => OK value
  | None =>
      let* nameLower := name_toLowerCase (Node.name node) in
      match by_name INPUT_APPEARANCES nameLower with
      | Some value => OK value
      | None =>
          if has_stroke node then OK "outline"
          else if has_fill node then OK "fill"
          else OK "standard"
      end
  end.

(** [Array.prototype.sort] with a comparison function: the sort is stable,
    and [after a b] says that the function is positive at [(a, b)], that is,
    [b] goes before [a]. *)
Fixpoint sort_insert {A : Type} (after : A -> A -> bool) (x : A) (l : list A) : list A :=
  match l with
  | [] => [x]
  | y :: tl => if after x y then y :: sort_insert after x tl else x :: l
  end.

Fixpoint sort {A : Type} (after : A -> A -> bool) (l : list A) : list A :=
  match l with
  | [] => []
  | x :: tl => sort_insert after x (sort after tl)
  end.

Definition fontSize_of (n : Node.t) : number :=
  number_or (match Node.style n with Some s => TypeStyle.fontSize s | None => None end)
            0%float.
Definition fontWeight_of (n : Node.t) : number :=
  number_or (match Node.style n with Some s => TypeStyle.fontWeight s | None => None end)
            0%float.

(** The comparison function of the title heuristic: font size first, then
    weight, both descending. *)
Definition title_compare (a b : Node.t) : number :=
  if negb (PrimFloat.eqb (fontSize_of a) (fontSize_of b))
  then (fontSize_of b - fontSize_of a)%float
  else (fontWeight_of b - fontWeight_of a)%float.

(** [characters?.length || 0] *)
Definition text_length (n : Node.t) : Z :=
  match Node.characters n with
  | Some s => Z.of_nat (String.length s)
  | None => 0%Z
  end.

Definition is_text (n : Node.t) : bool := is_str (Node.type n) "TEXT".

(** [textByName && textByName.characters] *)
Definition found_text (textByName : option Node.t) : option string :=
  match textByName with
  | Some child =>
      if truthy_string (Node.characters child) then Node.characters child else None
  | None => None
  end.

(** The heuristics of [extractTextContent] that apply when no child is named
    after the purpose; each is tried only for its own purposes. *)
Definition largest_text (children : list Node.t) : option JSValue :=
  match sort (fun a b => num_gt (title_compare a b) 0%float)
             (List.filter is_text children) with
  | first :: _ => Some (text_value (Node.characters first))
  | [] => None
  end.

Definition top_left_text (node : Node.t) (children : list Node.t) : option JSValue :=
  match List.filter
          (fun child =>
             is_text child &&
             (num_lt (toNumber (Node.y child)) (toNumber (Node.height node) * 0.3)%float ||
              num_lt (toNumber (Node.x child)) (toNumber (Node.width node) * 0.2)%float))
          children with
  | first :: _ => Some (text_value (Node.characters first))
  | [] => None
  end.

Definition longest_text (children : list Node.t) : option JSValue :=
  match sort (fun a b => (0 <? text_length b - text_length a)%Z)
             (List.filter is_text children) with
  | first :: _ => Some (text_value (Node.characters first))
  | [] => None
  end.

Definition extractTextContent (node : Node.t) (purpose : string) : result JSValue :=
  match Node.children node with
  | None => OK JNull
  | Some children =>
      let* textByName :=
        findM (fun child =>
                 andM (is_text child)
                      (let* lower := name_toLowerCase (Node.name child) in
                       OK (includes lower (toLowerCase purpose))))
              children in
      match found_text textByName with
      | Some text => OK (JString text)
      | None =>
          let byTitle :=
            if String.eqb purpose "title" || String.eqb purpose "heading"
            then largest_text children else None in
          let byLabel :=
            if String.eqb purpose "label" then top_left_text node children else None in
          let byContent :=
            if String.eqb purpose "content" then longest_text children else None in
          OK match byTitle, byLabel, byContent with
             | Some v, _, _ => v
             | None, Some v, _ => v
             | None, None, Some v => v
             | None, None, None => JNull
             end
      end
  end.

Definition isInputRequired (node : Node.t) : result bool :=
  let* nameLower := name_toLowerCase (Node.name node) in
  if includes nameLower "required" then OK true
  else
    match Node.children node with
    | Some children =>
        someM (fun child =>
                 orM (is_text child &&
                      match Node.characters child with
                      | Some text => includes text "*"
                      | None => false
                      end)
                     (let* lower1 := name_toLowerCase (Node.name child) in
                      orM (includes lower1 "required")
                          (let* lower2 := name_toLowerCase (Node.name child) in
                           OK (includes lower2 "asterisk"))))
              children
    | None => OK false
    end.

Definition hasActionButtons (node : Node.t) : result bool :=
  match Node.children node with
  | None => OK false
  | Some children =>
      let* actionsFrame :=
        findM (fun child =>
                 andM (is_str (Node.type child) "FRAME" || is_str (Node.type child) "GROUP")
                      (let* lower1 := name_toLowerCase (Node.name child) in
                       orM (includes lower1 "action")
                           (let* lower2 := name_toLowerCase (Node.name child) in
                            OK (includes lower2 "button"))))
              children in
      match actionsFrame with
      | Some _ => OK true
      | None =>
          someM (fun child =>
                   andM (is_str (Node.type child) "INSTANCE")
                        (orM match Node.componentId child with
                             | Some cid => includes cid "button"
                             | None => false
                             end
                             (let* lower := name_toLowerCase (Node.name child) in
                              OK (includes lower "button"))))
                children
      end
  end.

Fixpoint mapM {A B : Type} (f : A -> result B) (l : list A) : result (list B) :=
  match l with
  | [] => OK []
  | x :: tl =>
      let* y := f x in
      let* rest := mapM f tl in
      OK (y :: rest)
  end.

(** The text of one option of a select. *)
Definition option_text (option : Node.t) : result JSValue :=
  if truthy_string (Node.characters option) then OK (text_value (Node.characters option))
  else
    match List.find is_text (Node.kids option) with
    | Some textChild => OK (text_value (Node.characters textChild))
    | None =>
        match Node.name option with
        | Some name => OK (JString (trim (replace_option_item name)))
        | None => undefined_read "replace"
        end
    end.

Definition extractSelectOptions (node : Node.t) : result JSValue :=
  match Node.children node with
  | None => OK JNull
  | Some children =>
      let* optionNodes :=
        filterM (fun child =>
                   let* lower1 := name_toLowerCase (Node.name child) in
                   orM (includes lower1 "option")
                       (let* lower2 := name_toLowerCase (Node.name child) in
                        OK (includes lower2 "item")))
                children in
      if Nat.ltb 0 (length optionNodes) then
        let* texts := mapM option_text optionNodes in
        OK (JArray texts)
      else OK JNull
  end.

(** [a || b] on values *)
Definition value_or (a b : JSValue) : JSValue := if truthy a then a else b.

Definition extractComponentProperties (node : Node.t) (componentType : string)
  : result (gmap string JSValue) :=
  let properties : gmap string JSValue := ∅ in
  if String.eqb componentType "Button" then
    let* variant := determineButtonVariant node in
    let properties := <["variant" := JString variant]> properties in
    let* color := determineColorTheme node in
    let properties := <["color" := JString color]> properties in
    let* disabled := isNodeDisabled node in
    let properties := <["disabled" := JBool disabled]> properties in
    let* icon := hasChildIcon node in
    let properties := <["icon" := JBool icon]> properties in
    OK properties
  else if String.eqb componentType "Input" then
    let* appearance := determineInputAppearance node in
    let properties := <["appearance" := JString appearance]> properties in
    let* label := extractTextContent node "label" in
    let properties := <["label" := label]> properties in
    let* placeholder := extractTextContent node "placeholder" in
    let* placeholder :=
      if truthy placeholder then OK placeholder else extractTextContent node "hint" in
    let properties := <["placeholder" := placeholder]> properties in
    let* required := isInputRequired node in
    let properties := <["required" := JBool required]> properties in
    OK properties
  else if String.eqb componentType "Card" then
    let* title := extractTextContent node "title" in
    let properties := <["title" := title]> properties in
    let* subtitle := extractTextContent node "subtitle" in
    let properties :=
      if truthy subtitle then <["subtitle" := subtitle]> properties else properties in
    let* content := extractTextContent node "content" in
    let properties := <["content" := content]> properties in
    let* actions := hasActionButtons node in
    let properties := <["actions" := JBool actions]> properties in
    OK properties
  else if String.eqb componentType "DatePicker" then
    let* label := extractTextContent node "label" in
    let properties := <["label" := value_or label (JString "Choose a date")]> properties in
    let* appearance := determineInputAppearance node in
    let properties := <["appearance" := JString appearance]> properties in
    OK properties
  else if String.eqb componentType "Select" then
    let* label := extractTextContent node "label" in
    let properties := <["label" := value_or label (JString "Select an option")]> properties in
    let* appearance := determineInputAppearance node in
    let properties := <["appearance" := JString appearance]> properties in
    let* options := extractSelectOptions node in
    let properties := <["options" := options]> properties in
    OK properties
  else OK properties.

(* ===================================================================== *)
(** ** Geometry and style extractor *)
(* ===================================================================== *)

(** [if (x) styles.key = x] *)
Definition when_truthy (x : option number) : option number :=
  if truthy_number x then x else None.

(** A colour of the unit interval on the 0-255 scale. *)
Definition rgb_of (c : Color.t) : RGB.t :=
  RGB.mk (Math_round (Color.r c * 255)%float)
         (Math_round (Color.g c * 255)%float)
         (Math_round (Color.b c * 255)%float).

(** The colour of the first visible paint of a non-empty list. *)
Definition first_visible_color (paints : option (list Paint.t)) : option RGB.t :=
  match paints with
  | Some ((_ :: _) as ps) =>
      match List.find Paint.shown ps with
      | Some paint => option_map rgb_of (Paint.color paint)
      | None => None
      end
  | _ => None
  end.

Definition shadow_of (e : Effect.t) : BoxShadow.t :=
  BoxShadow.mk
    (number_or (match Effect.offset e with Some o => Vector.x o | None => None end) 0%float)
    (number_or (match Effect.offset e with Some o => Vector.y o | None => None end) 0%float)
    (number_or (Effect.radius e) 0%float)
    match Effect.color e with
    | Some c =>
        RGBA.mk (Math_round (Color.r c * 255)%float)
                (Math_round (Color.g c * 255)%float)
                (Math_round (Color.b c * 255)%float)
                (number_or (Color.a c) 1%float)
    | None => RGBA.mk 0%float 0%float 0%float 0.25%float
    end.

Definition extractComponentStyles (node : Node.t) : Styles.t :=
  Styles.mk
    match Node.absoluteBoundingBox node with
    | Some box => when_truthy (Rect.width box)
    | None => None
    end
    match Node.absoluteBoundingBox node with
    | Some box => when_truthy (Rect.height box)
    | None => None
    end
    (when_truthy (Node.cornerRadius node))
    (if truthy_number (Node.paddingLeft node) || truthy_number (Node.paddingRight node) ||
        truthy_number (Node.paddingTop node) || truthy_number (Node.paddingBottom node)
     then Some (Padding.mk (number_or (Node.paddingLeft node) 0%float)
                           (number_or (Node.paddingRight node) 0%float)
                           (number_or (Node.paddingTop node) 0%float)
                           (number_or (Node.paddingBottom node) 0%float))
     else None)
    match Node.style node with
    | Some s =>
        Some (Typography.mk (TypeStyle.fontSize s) (TypeStyle.fontWeight s)
                            (TypeStyle.lineHeight s) (TypeStyle.letterSpacing s)
                            (TypeStyle.textAlignHorizontal s))
    | None => None
    end
    (first_visible_color (Node.fills node))
    (first_visible_color (Node.strokes node))
    match Node.effects node with
    | Some ((_ :: _) as effects) => option_map shadow_of (List.find Effect.is_drop_shadow effects)
    | _ => None
    end.

(* ===================================================================== *)
(** ** Support status and target mapping *)
(* ===================================================================== *)

Definition fullySupported : list string :=
  [ "Button"; "Input"; "Card"; "Checkbox"; "Radio" ].

Definition partiallySupported : list string :=
  [ "Select"; "DatePicker"; "Tabs"; "Table" ].

Definition determineComponentSupportStatus (componentType : string) : SupportStatus :=
  if array_includes fullySupported componentType then supported
  else if array_includes partiallySupported componentType then partial
  else unsupported.

Definition componentMap : list (string * string) :=
  [ ("Button", "mat-button"); ("Input", "mat-form-field"); ("Card", "mat-card");
    ("Checkbox", "mat-checkbox"); ("Radio", "mat-radio"); ("Select", "mat-select");
    ("DatePicker", "mat-datepicker"); ("Tabs", "mat-tabs"); ("Table", "mat-table") ].

Definition mapToAngularMaterialComponent (componentType : string) : option string :=
  option_map snd (first_entry (fun key _ => String.eqb key componentType) componentMap).

(* ===================================================================== *)
(** ** Tree walker and aggregator *)
(* ===================================================================== *)

(** The body of [traverseFigmaNodes] that handles the node itself:
    [components.push] when the node is a candidate. *)
Definition visit (node : Node.t) (components : list FigmaComponent.t)
  : result (list FigmaComponent.t) :=
  let* candidate := isComponentCandidate node in
  if candidate then
    let* componentType := detectComponentType node in
    let* componentProps := extractComponentProperties node componentType in
    let styles := extractComponentStyles node in
    let supportStatus := determineComponentSupportStatus componentType in
    let angularComponent := mapToAngularMaterialComponent componentType in
    OK (components ++
        [ FigmaComponent.mk (Node.id node) (Node.name node) componentType
                            angularComponent supportStatus componentProps styles ])
  else OK components.

(** [node.type === 'FRAME' || node.type === 'GROUP'] *)
Definition is_frame (node : Node.t) : bool :=
  is_str (Node.type node) "FRAME" || is_str (Node.type node) "GROUP".

(** [traverseFigmaNodes(node, components, frameCount)].  The array
    [components] is shared by all the calls, so it is threaded through them
    and returned.  [frameCount] is a number: each call has its own copy of
    it, incremented locally and handed to the calls on the children; no
    call gives it back. *)
Fixpoint traverseFigmaNodes (node : Node.t) (components : list FigmaComponent.t)
    (frameCount : Z) {struct node} : result (list FigmaComponent.t) :=
  let* components := visit node components in
  let frameCount := if is_frame node then (frameCount + 1)%Z else frameCount in
  match node with
  | Node.mk _ _ _ _ (Some children) _ _ _ _ _ _ _ _ _ _ _ _ _ _ _ _ =>
      (fix forEach (cs : list Node.t) (components : list FigmaComponent.t)
         : result (list FigmaComponent.t) :=
         match cs with
         | [] => OK components
         | child :: tl =>
             let* components := traverseFigmaNodes child components frameCount in
             forEach tl components
         end) children components
  | _ => OK components
  end.

(** [components.filter(c => c.supportStatus === status).length] *)
Definition count_status (status : SupportStatus) (components : list FigmaComponent.t) : nat :=
  length (List.filter (fun c => SupportStatus_eqb (FigmaComponent.supportStatus c) status)
                      components).

(** [x || fallback] on strings *)
Definition string_or (x : option string) (fallback : string) : string :=
  match x with
  | Some s => if truthy_string x then s else fallback
  | None => fallback
  end.

Definition analyzeFigmaComponents (figmaData : FigmaData.t) : result FigmaFileResponse.t :=
  let body : result FigmaFileResponse.t :=
    let fileKey := string_or (FigmaData.id figmaData) "figma-file-1" in
    let fileName := string_or (FigmaData.name figmaData) "Design System" in
    let components : list FigmaComponent.t := [] in
    let frameCount := 0%Z in
    let* components :=
      match FigmaData.document figmaData with
      | Some document => traverseFigmaNodes document components frameCount
      | None => undefined_read "type"
      end in
    let supported := count_status supported components in
    let partial := count_status partial components in
    let unsupported := count_status unsupported components in
    OK (FigmaFileResponse.mk fileKey fileName components
          (Stats.mk (length components) frameCount supported partial unsupported)) in
  match body with
  | OK response => OK response
  | Throw error => Throw (Error ("Failed to analyze Figma components: " ++ message error))
  end.

(* ===================================================================== *)
(** ** Definitions used by the statements *)
(* ===================================================================== *)

(** [forEach] over the children with the shared array threaded through. *)
Fixpoint forEachM {A S : Type} (f : A -> S -> result S) (l : list A) (s : S) : result S :=
  match l with
  | [] => OK s
  | x :: tl => let* s' := f x s in forEachM f tl s'
  end.

(** [n] is [root] or one of its descendants. *)
Inductive within (n : Node.t) : Node.t -> Prop :=
| within_self : within n n
| within_child (root child : Node.t) :
    In child (Node.kids root) -> within n child -> within n root.

(** The number of nodes of a tree tagged [FRAME] or [GROUP]. *)
Fixpoint count_frames (node : Node.t) : nat :=
  (if is_frame node then 1 else 0) +
  match node with
  | Node.mk _ _ _ _ (Some children) _ _ _ _ _ _ _ _ _ _ _ _ _ _ _ _ =>
      (fix sum (cs : list Node.t) : nat :=
         match cs with
         | [] => 0
         | child :: tl => count_frames child + sum tl
         end) children
  | _ => 0
  end.

(** *** The precedence order of the specification (section 4.2)

    A rule looks at the external component id and at the lowered name, and
    either names a widget type or does not apply. *)
Definition rule : Type := option string -> string -> option string.

(** Rule 1: the id is a member of the id list of a type of the catalog. *)
Definition in_catalog : rule :=
  fun componentId _ =>
    match componentId with
    | Some id =>
        option_map fst
          (List.find (fun entry => existsb (String.eqb id) (snd entry)) COMPONENT_TYPE_IDS)
    | None => None
    end.

(** Rules 2 to 7, 9 and 10: the lowered name contains one of the keywords. *)
Definition name_contains (keywords : list string) (widget : string) : rule :=
  fun _ nameLower =>
    if existsb (includes nameLower) keywords then Some widget else None.

(** Rule 8: the lowered name contains "tab" and not "table". *)
Definition tab_not_table : rule :=
  fun _ nameLower =>
    if includes nameLower "tab" && negb (includes nameLower "table")
    then Some "Tabs" else None.

Definition precedence : list rule :=
  [ in_catalog;
    name_contains ["button"] "Button";
    name_contains ["input"; "field"; "text field"] "Input";
    name_contains ["card"] "Card";
    name_contains ["check"] "Checkbox";
    name_contains ["select"; "dropdown"; "combo"] "Select";
    name_contains ["date"; "calendar"] "DatePicker";
    tab_not_table;
    name_contains ["table"] "Table";
    name_contains ["carousel"; "slider"] "Carousel" ].

(** The first rule of the list that applies decides. *)
Fixpoint first_match (rules : list rule) (componentId : option string) (nameLower : string)
  : option string :=
  match rules with
  | [] => None
  | r :: tl =>
      match r componentId nameLower with
      | Some widget => Some widget
      | None => first_match tl componentId nameLower
      end
  end.

(** Rules 11 and 12: the shape detectors in their order, then Custom. *)
Definition structural_fallback (node : Node.t) : result string :=
  let* buttonLike := hasButtonLikeStructure node in
  if buttonLike then OK "Button"
  else
    let* inputLike := hasInputFieldStructure node in
    if inputLike then OK "Input"
    else if hasCardStructure node then OK "Card"
    else OK "Custom".

Definition classify_by_precedence (node : Node.t) : result string :=
  match Node.name node with
  | None => undefined_read "toLowerCase"
  | Some name =>
      match first_match precedence (Node.componentId node) (toLowerCase name) with
      | Some widget => OK widget
      | None => structural_fallback node
      end
  end.

(** *** Candidates *)

(** The lowered name contains one of the candidate keywords. *)
Definition has_candidate_keyword (name : option string) : bool :=
  match name with
  | Some n => existsb (includes (toLowerCase n)) candidate_keywords
  | None => false
  end.

(** The candidate test as the specification words it: instances and
    component definitions always, frames and groups by keyword. *)
Definition candidate_by_spec (node : Node.t) : bool :=
  is_str (Node.type node) "INSTANCE" || is_str (Node.type node) "COMPONENT" ||
  ((is_str (Node.type node) "FRAME" || is_str (Node.type node) "GROUP") &&
   has_candidate_keyword (Node.name node)).

(** *** The disabled state *)

(** The first fill with [visible !== false] has a colour of saturation
    below 0.1. *)
Definition desaturated (node : Node.t) : bool :=
  match Node.fills node with
  | Some fills =>
      match List.find Paint.shown fills with
      | Some fill =>
          match Paint.color fill with
          | Some c => num_lt (saturation c) 0.1%float
          | None => false
          end
      | None => false
      end
  | None => false
  end.

(** The disabled test as the specification words it. *)
Definition disabled_by_spec (node : Node.t) (name : string) : bool :=
  includes (toLowerCase name) "disabled" ||
  num_lt (toNumber (Node.opacity node)) 0.5%float ||
  desaturated node.

(** *** Missing names *)

(** The node or one of its children has no name. *)
Definition unnamed_near (node : Node.t) : Prop :=
  Node.name node = None \/
  exists child, In child (Node.kids node) /\ Node.name child = None.

(** The kinds whose nodes are always classified or tested by name. *)
Definition named_kind (node : Node.t) : Prop :=
  Node.type node = Some "COMPONENT" \/
  Node.type node = Some "INSTANCE" \/
  Node.type node = Some "FRAME".

(** Every node of the tree has a name. *)
Fixpoint all_named (node : Node.t) : bool :=
  match Node.name node with Some _ => true | None => false end &&
  match node with
  | Node.mk _ _ _ _ (Some children) _ _ _ _ _ _ _ _ _ _ _ _ _ _ _ _ =>
      (fix all (cs : list Node.t) : bool :=
         match cs with
         | [] => true
         | child :: tl => all_named child && all tl
         end) children
  | _ => true
  end.

(** *** Example inputs *)

(** The lone component instance of the scenario: an instance named
    "Primary Button" of the component [button-primary], with a visible drop
    shadow and one solid fill. *)
Definition primary_button : Node.t :=
  Node.mk (Some "1:1") (Some "Primary Button") (Some "INSTANCE") (Some "button-primary")
    None None
    (Some (Rect.mk (Some 120%float) (Some 40%float)))
    (Some 4%float) None
    (Some [ Paint.mk (Some "SOLID") None None
              (Some (Color.mk 0.2%float 0.4%float 0.9%float None)) ])
    (Some [])
    (Some [ Effect.mk (Some "DROP_SHADOW") (Some true) None None None ])
    None None None None None None None None None.

Definition primary_button_file : FigmaData.t :=
  FigmaData.mk (Some "file-1") (Some "Design System") (Some primary_button).

(** A document that is one empty frame. *)
Definition lone_frame : Node.t :=
  Node.bare (Some "2:1") (Some "Hero") (Some "FRAME") None.

Definition lone_frame_file : FigmaData.t :=
  FigmaData.mk (Some "file-2") (Some "Frames") (Some lone_frame).

(** A group whose name holds a candidate keyword. *)
Definition button_group : Node.t :=
  Node.bare (Some "3:1") (Some "Button Group") (Some "GROUP") None.

(** A fully transparent button without fills. *)
Definition transparent_button : Node.t :=
  Node.mk (Some "4:1") (Some "Submit Button") (Some "INSTANCE") None
    None None None None (Some 0%float) None None None
    None None None None None None None None None.

(** A select that has no children. *)
Definition empty_select : Node.t :=
  Node.bare (Some "5:1") (Some "Country Select") (Some "INSTANCE") None.

(** A frame named "Tab Button" and an instance of a catalog button whose
    name speaks of an input. *)
Definition tab_button : Node.t :=
  Node.bare (Some "6:1") (Some "Tab Button") (Some "FRAME") None.

Definition input_named_button : Node.t :=
  Node.mk (Some "6:2") (Some "Search input") (Some "INSTANCE") (Some "button-flat")
    None None None None None None None None
    None None None None None None None None None.

(** The document of the mock import: a root with neither name nor kind
    that holds one page with one named frame. *)
Definition mock_document : Node.t :=
  Node.bare None None None
    (Some [ Node.bare (Some "0:1") (Some "Page 1") (Some "CANVAS")
              (Some [ Node.bare (Some "1:3") (Some "Card Component") (Some "FRAME") None ]) ]).

Definition mock_file : FigmaData.t :=
  FigmaData.mk (Some "file-3") (Some "Design System") (Some mock_document).

(** A page that holds an instance without a name. *)
Definition nameless_instance : Node.t :=
  Node.bare (Some "7:1") None (Some "INSTANCE") None.

Definition nameless_file : FigmaData.t :=
  FigmaData.mk None None
    (Some (Node.bare (Some "0:1") (Some "Page 1") (Some "CANVAS") (Some [nameless_instance]))).


(** A component definition that matches no rule, and the record the
    analysis makes of it. *)
Definition hero : Node.t :=
  Node.bare (Some "2:1") (Some "Hero") (Some "COMPONENT") None.

Definition hero_file : FigmaData.t := FigmaData.mk None None (Some hero).

Definition hero_component : FigmaComponent.t :=
  FigmaComponent.mk (Some "2:1") (Some "Hero") "Custom" None unsupported ∅
    (Styles.mk None None None None None None None None).

(** A document with a name and no kind over a page with a frame. *)
Definition untyped_document : Node.t :=
  Node.bare (Some "0:0") (Some "Document") None
    (Some [ Node.bare (Some "0:1") (Some "Page 1") None
              (Some [ Node.bare (Some "1:3") (Some "Card Component") (Some "FRAME") None ]) ]).

Definition untyped_file : FigmaData.t :=
  FigmaData.mk (Some "file-4") (Some "Design System") (Some untyped_document).

(** A card frame that holds a button instance and a plain text. *)
Definition card_with_button : Node.t :=
  Node.bare (Some "8:1") (Some "Profile Card") (Some "FRAME")
    (Some [ Node.bare (Some "8:2") (Some "Caption") (Some "TEXT") None;
            Node.bare (Some "8:3") (Some "Follow Button") (Some "INSTANCE") None ]).

Definition card_with_button_file : FigmaData.t :=
  FigmaData.mk (Some "file-5") None (Some card_with_button).

(** An instance of a catalog radio component. *)
Definition radio_choice : Node.t :=
  Node.mk (Some "9:1") (Some "Choice") (Some "INSTANCE") (Some "radio-option")
    None None None None None None None None
    None None None None None None None None None.

(** A component made of a short label and a rectangle. *)
Definition labelled_box : Node.t :=
  Node.bare (Some "10:1") (Some "Username") (Some "COMPONENT")
    (Some [ Node.mk (Some "10:2") (Some "Label") (Some "TEXT") None None (Some "Name")
              None None None None None None None None None None None None None None None;
            Node.bare (Some "10:3") (Some "Box") (Some "RECTANGLE") None ]).

(** A frame with a hidden red fill, an image fill without colour and a blue
    fill. *)
Definition two_fills : Node.t :=
  Node.mk (Some "11:1") (Some "Banner") (Some "FRAME") None
    None None None None None
    (Some [ Paint.mk (Some "SOLID") (Some false) None
              (Some (Color.mk 1%float 0%float 0%float None));
            Paint.mk (Some "IMAGE") None None None;
            Paint.mk (Some "SOLID") None None
              (Some (Color.mk 0%float 0%float 1%float None)) ])
    None None None None None None None None None None None.

(** A document that is a button instance without an id. *)
Definition anonymous_button_file : FigmaData.t :=
  FigmaData.mk None None (Some (Node.bare None (Some "Save Button") (Some "INSTANCE") None)).

(* ===================================================================== *)
(** ** The file key of a Figma URL *)
(* ===================================================================== *)

(** [s.split('/')]: the pieces between the separators, empty pieces kept;
    the empty string gives one empty piece. *)
Fixpoint split_on (sep : ascii) (s : string) : list string :=
  match s with
  | EmptyString => [EmptyString]
  | String c tl =>
      if Ascii.eqb c sep then EmptyString :: split_on sep tl
      else
        match split_on sep tl with
        | piece :: pieces => String c piece :: pieces
        | [] => [String c EmptyString]
        end
  end.

(** [array.indexOf(x)], [-1] when [x] is not an element. *)
Fixpoint indexOf (l : list string) (x : string) : Z :=
  match l with
  | [] => (-1)%Z
  | y :: tl =>
      if String.eqb y x then 0%Z
      else let i := indexOf tl x in if (i <? 0)%Z then (-1)%Z else (i + 1)%Z
  end.

(** One of the three blocks of [extractFileKeyFromUrl]: the part that
    follows the first part equal to [marker], when there is one. *)
Definition key_after (pathParts : list string) (marker : string) : option string :=
  if array_includes pathParts marker then
    let keyIndex := (indexOf pathParts marker + 1)%Z in
    if (keyIndex <? Z.of_nat (length pathParts))%Z
    then nth_error pathParts (Z.to_nat keyIndex)
    else None
  else None.

Section FileKey.

(** [new URL(url).pathname], [None] when the constructor throws: the URL
    parser is the platform's. *)
Variable pathname : string -> option string.

Definition extractFileKeyFromUrl (url : string) : string :=
  match pathname url with
  | Some path =>
      let pathParts := split_on "/"%char path in
      match key_after pathParts "file" with
      | Some key => key
      | None =>
          match key_after pathParts "design" with
          | Some key => key
          | None =>
              match key_after pathParts "proto" with
              | Some key => key
              | None => "figma-file-key"
              end
          end
      end
  | None => "figma-file-key"
  end.

End FileKey.

(** A URL and what the URL parser gives as its path. *)
Definition sample_url : string := "https://www.figma.com/file/AbC123/design/proto".

Definition sample_pathname (url : string) : option string :=
  if String.eqb url sample_url then Some "/file/AbC123/design/proto" else None.

(* ===================================================================== *)
(** ** The response schema checked by the routes *)
(* ===================================================================== *)

(** [figmaFileResponseSchema.parse(analysisResult)] in the import and upload
    routes.  Of the fields of the schema, [figmaId: z.string()] and
    [name: z.string()] are the ones an analysis result can miss: both are
    copied from the node, where they may be [undefined], and a [z.string()]
    does not accept [undefined].  The other fields are always of their
    declared type. *)
Definition component_conforms (c : FigmaComponent.t) : bool :=
  match FigmaComponent.figmaId c, FigmaComponent.name c with
  | Some _, Some _ => true
  | _, _ => false
  end.

Definition response_conforms (response : FigmaFileResponse.t) : bool :=
  forallb component_conforms (FigmaFileResponse.components response).

(* ===================================================================== *)
(** ** Further definitions used by the statements *)
(* ===================================================================== *)

(** The candidate test as a total function: what [isComponentCandidate]
    returns when it returns. *)
Definition is_candidate (node : Node.t) : bool :=
  is_str (Node.type node) "COMPONENT" || is_str (Node.type node) "INSTANCE" ||
  (is_str (Node.type node) "FRAME" && has_candidate_keyword (Node.name node)).

(** The nodes of a tree in pre-order. *)
Fixpoint preorder (node : Node.t) : list Node.t :=
  node ::
  match node with
  | Node.mk _ _ _ _ (Some children) _ _ _ _ _ _ _ _ _ _ _ _ _ _ _ _ =>
      (fix each (cs : list Node.t) : list Node.t :=
         match cs with
         | [] => []
         | child :: tl => preorder child ++ each tl
         end) children
  | _ => []
  end.

(** The candidate nodes of a tree in pre-order. *)
Definition candidates (node : Node.t) : list Node.t :=
  List.filter is_candidate (preorder node).

(** The record [traverseFigmaNodes] pushes for a candidate node. *)
Definition record_of (node : Node.t) : result FigmaComponent.t :=
  let* componentType := detectComponentType node in
  let* componentProps := extractComponentProperties node componentType in
  OK (FigmaComponent.mk (Node.id node) (Node.name node) componentType
        (mapToAngularMaterialComponent componentType)
        (determineComponentSupportStatus componentType)
        componentProps (extractComponentStyles node)).

(** The node under another name. *)
Definition with_name (node : Node.t) (name : option string) : Node.t :=
  Node.mk (Node.id node) name (Node.type node) (Node.componentId node)
    (Node.children node) (Node.characters node) (Node.absoluteBoundingBox node)
    (Node.cornerRadius node) (Node.opacity node) (Node.fills node) (Node.strokes node)
    (Node.effects node) (Node.style node) (Node.x node) (Node.y node)
    (Node.width node) (Node.height node) (Node.paddingLeft node)
    (Node.paddingRight node) (Node.paddingTop node) (Node.paddingBottom node).

(** The widget types the classifier can return. *)
Definition widget_types : list string :=
  [ "Button"; "Input"; "Card"; "Checkbox"; "Radio"; "Select"; "DatePicker";
    "Tabs"; "Table"; "Carousel"; "Custom" ].

(** The child has the purpose in its name, as [extractTextContent] looks for
    it; [false] for a child without a name. *)
Definition named_for (purpose : string) (child : Node.t) : bool :=
  match Node.name child with
  | Some name => includes (toLowerCase name) (toLowerCase purpose)
  | None => false
  end.


(* ===================================================================== *)
(** ** General lemmas *)
(* ===================================================================== *)

Lemma bind_OK {A B : Type} (m : result A) (k : A -> result B) (b : B) :
  bind m k = OK b -> exists a, m = OK a /\ k a = OK b.
Proof. destruct m as [a|e]; simpl; [eauto | discriminate]. Qed.

Lemma bind_Throw {A B : Type} (m : result A) (k : A -> result B) (e : exn) :
  bind m k = Throw e -> m = Throw e \/ exists a, m = OK a /\ k a = Throw e.
Proof. destruct m as [a|e']; simpl; intros H; [right; eauto | left; congruence]. Qed.

(** Induction on the tree: the property may be assumed of every child. *)
Lemma Node_ind_kids (P : Node.t -> Prop) :
  (forall n, Forall P (Node.kids n) -> P n) -> forall n, P n.
Proof.
  intros step. fix IH 1. intros n. apply step.
  destruct n as [? ? ? ? kids ? ? ? ? ? ? ? ? ? ? ? ? ? ? ? ?]. unfold Node.kids; simpl.
  destruct kids as [cs|]; [|constructor].
  induction cs as [|c cs IHcs]; constructor; [apply IH | exact IHcs].
Qed.

Lemma traverseFigmaNodes_eq (node : Node.t) (components : list FigmaComponent.t) (frameCount : Z) :
  traverseFigmaNodes node components frameCount =
  let* components' := visit node components in
  forEachM (fun child acc =>
              traverseFigmaNodes child acc
                (if is_frame node then (frameCount + 1)%Z else frameCount))
           (Node.kids node) components'.
Proof.
  destruct node as [? ? ? ? kids ? ? ? ? ? ? ? ? ? ? ? ? ? ? ? ?].
  unfold Node.kids; simpl.
  destruct (visit _ components) as [components'|e]; simpl; [|reflexivity].
  destruct kids as [cs|]; [|reflexivity].
  revert components'. induction cs as [|c cs IHcs]; intros components'; simpl; [reflexivity|].
  destruct (traverseFigmaNodes c components' _); simpl; [apply IHcs | reflexivity].
Qed.

(** What a successful analysis returns. *)
Lemma analyzeFigmaComponents_OK (figmaData : FigmaData.t) (response : FigmaFileResponse.t) :
  analyzeFigmaComponents figmaData = OK response ->
  exists document components,
    FigmaData.document figmaData = Some document /\
    traverseFigmaNodes document [] 0 = OK components /\
    response =
      FigmaFileResponse.mk
        (string_or (FigmaData.id figmaData) "figma-file-1")
        (string_or (FigmaData.name figmaData) "Design System")
        components
        (Stats.mk (length components) 0
                  (count_status supported components)
                  (count_status partial components)
                  (count_status unsupported components)).
Proof.
  unfold analyzeFigmaComponents.
  destruct (FigmaData.document figmaData) as [document|]; simpl; [|discriminate].
  destruct (traverseFigmaNodes document [] 0) as [components|e] eqn:Hwalk; simpl;
    [|discriminate].
  intros H. injection H as <-.
  exists document, components.
  split; [reflexivity | split; [exact Hwalk | reflexivity]].
Qed.

Lemma array_includes_In (ids : list string) (id : string) :
  array_includes ids id = true <-> In id ids.
Proof.
  unfold array_includes. rewrite existsb_exists. split.
  - intros (x & Hx & Heq). apply String.eqb_eq in Heq. now subst.
  - intros Hx. exists id. split; [exact Hx | apply String.eqb_refl].
Qed.

Lemma array_includes_not_In (ids : list string) (id : string) :
  array_includes ids id = false <-> ~ In id ids.
Proof.
  rewrite <- array_includes_In. destruct (array_includes ids id); split; congruence.
Qed.

(** The three counts split the list. *)
Lemma count_status_total (components : list FigmaComponent.t) :
  count_status supported components + count_status partial components +
  count_status unsupported components = length components.
Proof.
  unfold count_status.
  induction components as [|c cs IH]; simpl; [reflexivity|].
  destruct (FigmaComponent.supportStatus c); simpl; lia.
Qed.

(** *** Substrings *)

Lemma prefix_append (p s : string) :
  String.prefix p s = true <-> exists rest, s = (p ++ rest)%string.
Proof.
  revert s. induction p as [|c p IH]; intros s.
  - split; [intros _; exists s; reflexivity | intros _; destruct s; reflexivity].
  - destruct s as [|d s]; simpl.
    + split; [discriminate | intros (rest & H); discriminate].
    + destruct (Ascii.ascii_dec c d) as [->|Hne].
      * rewrite IH. split; intros (rest & H); exists rest; [now subst | now injection H].
      * split; [discriminate | intros (rest & H); injection H as H1 H2; congruence].
Qed.

Lemma append_cons (c : ascii) (s1 s2 : string) :
  (String c s1 ++ s2 = String c (s1 ++ s2))%string.
Proof. reflexivity. Qed.

Lemma append_assoc (s1 s2 s3 : string) :
  ((s1 ++ s2) ++ s3 = s1 ++ (s2 ++ s3))%string.
Proof.
  induction s1 as [|c s1 IH]; [reflexivity|].
  now rewrite !append_cons, IH.
Qed.

(** [includes s sub] holds exactly when [sub] occurs somewhere in [s]. *)
Lemma includes_occurs (s sub : string) :
  includes s sub = true <-> exists before after, s = (before ++ sub ++ after)%string.
Proof.
  induction s as [|c s IH].
  - cbn [includes]. rewrite orb_false_r, prefix_append. split.
    + intros (rest & H). exists "", rest. exact H.
    + intros (before & after & H). destruct before as [|d before].
      * exists after. exact H.
      * rewrite append_cons in H. discriminate.
  - cbn [includes]. rewrite orb_true_iff, prefix_append, IH. split.
    + intros [(rest & H) | (before & after & H)].
      * exists "", rest. exact H.
      * exists (String c before), after. rewrite append_cons. now rewrite H.
    + intros (before & after & H). destruct before as [|d before].
      * left. exists after. exact H.
      * right. rewrite append_cons in H. injection H as _ H.
        exists before, after. exact H.
Qed.

(** What occurs in an occurrence occurs in the whole. *)
Lemma includes_trans (s k k' : string) :
  includes k k' = true -> includes s k = true -> includes s k' = true.
Proof.
  rewrite !includes_occurs.
  intros (b1 & a1 & ->) (b2 & a2 & ->).
  exists (b2 ++ b1)%string, (a1 ++ a2)%string.
  now rewrite !append_assoc.
Qed.

(** A property of the pushed components that [visit] establishes holds of
    the whole list the traversal returns. *)
Lemma traverseFigmaNodes_Forall (P : FigmaComponent.t -> Prop) :
  (forall node components components',
      visit node components = OK components' ->
      Forall P components -> Forall P components') ->
  forall node components frameCount components',
    traverseFigmaNodes node components frameCount = OK components' ->
    Forall P components -> Forall P components'.
Proof.
  intros Hvisit node. induction node as [node IH] using Node_ind_kids.
  intros components frameCount components' Hwalk HP.
  rewrite traverseFigmaNodes_eq in Hwalk.
  apply bind_OK in Hwalk as (visited & Hv & Hkids).
  apply (Hvisit _ _ _ Hv) in HP. clear Hv.
  revert visited HP Hkids.
  induction IH as [|child kids Hchild _ IHkids]; simpl; intros visited HP Hkids.
  - injection Hkids as <-. exact HP.
  - apply bind_OK in Hkids as (acc & Hc & Hrest).
    eapply IHkids; [|exact Hrest]. eapply Hchild; eassumption.
Qed.

Lemma visit_status (node : Node.t) (components components' : list FigmaComponent.t) :
  visit node components = OK components' ->
  Forall (fun c => FigmaComponent.supportStatus c =
                   determineComponentSupportStatus (FigmaComponent.type c)) components ->
  Forall (fun c => FigmaComponent.supportStatus c =
                   determineComponentSupportStatus (FigmaComponent.type c)) components'.
Proof.
  unfold visit. intros H HP.
  apply bind_OK in H as (candidate & _ & H).
  destruct candidate.
  - apply bind_OK in H as (componentType & _ & H).
    apply bind_OK in H as (componentProps & _ & H).
    injection H as <-. apply Forall_app. split; [exact HP|].
    constructor; [reflexivity | constructor].
  - injection H as <-. exact HP.
Qed.

(** The count of frames that [analyzeFigmaComponents] reports is the value
    of its own local variable, which no call of the traversal changes. *)
Lemma analyzeFigmaComponents_frames (figmaData : FigmaData.t) (response : FigmaFileResponse.t) :
  analyzeFigmaComponents figmaData = OK response ->
  Stats.frames (FigmaFileResponse.stats response) = 0%Z.
Proof.
  intros H. apply analyzeFigmaComponents_OK in H as (document & components & _ & _ & ->).
  reflexivity.
Qed.

(* ===================================================================== *)
(** ** C1: the frame count *)
(* ===================================================================== *)

(** The reported count is right only on a tree without frames. *)
Lemma frames_right_only_without_frames (figmaData : FigmaData.t) (document : Node.t)
    (response : FigmaFileResponse.t) :
  FigmaData.document figmaData = Some document ->
  analyzeFigmaComponents figmaData = OK response ->
  (Stats.frames (FigmaFileResponse.stats response) = Z.of_nat (count_frames document) <->
   count_frames document = 0).
Proof.
  intros _ H. rewrite (analyzeFigmaComponents_frames _ _ H). lia.
Qed.

(** C1.  The specification has [stats.frames] equal to the number of nodes
    tagged FRAME or GROUP.  On the document that is a single frame the
    analysis succeeds and reports [frames = 0], although the tree holds one
    frame: the increment in [traverseFigmaNodes] acts on a copy of the
    counter. *)
Theorem frames_not_counted :
  exists response,
    analyzeFigmaComponents lone_frame_file = OK response /\
    Stats.frames (FigmaFileResponse.stats response) = 0%Z /\
    count_frames lone_frame = 1.
Proof.
  eexists. split; [vm_compute; reflexivity|]. split; reflexivity.
Qed.

(* ===================================================================== *)
(** ** C2: consistency of the statistics *)
(* ===================================================================== *)

(** C2.  Whenever [analyzeFigmaComponents] returns a result, its
    [totalComponents] is the length of [components], and the counts of
    supported, partial and unsupported components add up to it. *)
Theorem stats_consistent (figmaData : FigmaData.t) (response : FigmaFileResponse.t) :
  analyzeFigmaComponents figmaData = OK response ->
  Stats.totalComponents (FigmaFileResponse.stats response) =
    length (FigmaFileResponse.components response) /\
  Stats.supported (FigmaFileResponse.stats response) +
  Stats.partial (FigmaFileResponse.stats response) +
  Stats.unsupported (FigmaFileResponse.stats response) =
    Stats.totalComponents (FigmaFileResponse.stats response).
Proof.
  intros H. apply analyzeFigmaComponents_OK in H as (document & components & _ & _ & ->).
  simpl. split; [reflexivity | apply count_status_total].
Qed.

Lemma stats_consistent_witness :
  exists response,
    analyzeFigmaComponents primary_button_file = OK response /\
    Stats.totalComponents (FigmaFileResponse.stats response) =
      length (FigmaFileResponse.components response) /\
    Stats.supported (FigmaFileResponse.stats response) +
    Stats.partial (FigmaFileResponse.stats response) +
    Stats.unsupported (FigmaFileResponse.stats response) =
      Stats.totalComponents (FigmaFileResponse.stats response).
Proof.
  eexists. split; [vm_compute; reflexivity|].
  apply (stats_consistent primary_button_file). vm_compute; reflexivity.
Defined.

(* ===================================================================== *)
(** ** C7: the support status *)
(* ===================================================================== *)

(** C7.  The support status is a function of the widget type alone:
    supported exactly for Button, Input, Card, Checkbox and Radio, partial
    exactly for Select, DatePicker, Tabs and Table, unsupported for every
    other type, Custom and Carousel among them; and the status recorded in
    each component of an analysis result is that function of the
    component's type. *)
Theorem support_status_of_type :
  (forall componentType,
      determineComponentSupportStatus componentType = supported <->
      In componentType ["Button"; "Input"; "Card"; "Checkbox"; "Radio"]) /\
  (forall componentType,
      determineComponentSupportStatus componentType = partial <->
      In componentType ["Select"; "DatePicker"; "Tabs"; "Table"]) /\
  (forall componentType,
      determineComponentSupportStatus componentType = unsupported <->
      ~ In componentType ["Button"; "Input"; "Card"; "Checkbox"; "Radio";
                          "Select"; "DatePicker"; "Tabs"; "Table"]) /\
  determineComponentSupportStatus "Custom" = unsupported /\
  determineComponentSupportStatus "Carousel" = unsupported /\
  (forall figmaData response c,
      analyzeFigmaComponents figmaData = OK response ->
      In c (FigmaFileResponse.components response) ->
      FigmaComponent.supportStatus c =
        determineComponentSupportStatus (FigmaComponent.type c)).
Proof.
  assert (Hcase : forall t,
             (In t fullySupported /\ determineComponentSupportStatus t = supported) \/
             (~ In t fullySupported /\ In t partiallySupported /\
              determineComponentSupportStatus t = partial) \/
             (~ In t fullySupported /\ ~ In t partiallySupported /\
              determineComponentSupportStatus t = unsupported)).
  { intros t. unfold determineComponentSupportStatus.
    destruct (array_includes fullySupported t) eqn:Hfull.
    { left. split; [now apply array_includes_In | reflexivity]. }
    apply array_includes_not_In in Hfull.
    destruct (array_includes partiallySupported t) eqn:Hpart.
    { right; left. repeat split; [exact Hfull | now apply array_includes_In]. }
    apply array_includes_not_In in Hpart.
    right; right. repeat split; assumption. }
  split; [|split; [|split; [|split; [|split]]]].
  - intros t. destruct (Hcase t) as [(Hf & ->) | [(Hf & Hp & ->) | (Hf & Hp & ->)]];
      unfold fullySupported in *; simpl in *; intuition congruence.
  - intros t. destruct (Hcase t) as [(Hf & ->) | [(Hf & Hp & ->) | (Hf & Hp & ->)]];
      unfold fullySupported, partiallySupported in *; simpl in *; intuition congruence.
  - intros t. destruct (Hcase t) as [(Hf & ->) | [(Hf & Hp & ->) | (Hf & Hp & ->)]];
      unfold fullySupported, partiallySupported in *; simpl in *; intuition congruence.
  - reflexivity.
  - reflexivity.
  - intros figmaData response c H Hc.
    apply analyzeFigmaComponents_OK in H as (document & components & _ & Hwalk & ->).
    simpl in Hc.
    eapply (traverseFigmaNodes_Forall _ visit_status) in Hwalk; [|constructor].
    rewrite List.Forall_forall in Hwalk. apply Hwalk. exact Hc.
Qed.

Lemma support_status_of_type_witness :
  FigmaComponent.supportStatus hero_component =
  determineComponentSupportStatus (FigmaComponent.type hero_component).
Proof.
  apply (proj2 (proj2 (proj2 (proj2 (proj2 support_status_of_type))))
           hero_file
           (FigmaFileResponse.mk "figma-file-1" "Design System" [hero_component]
              (Stats.mk 1 0 0 0 1))).
  - vm_compute. reflexivity.
  - left. reflexivity.
Defined.

(* ===================================================================== *)
(** ** C9: the primary-button scenario *)
(* ===================================================================== *)

(** C9.  The analysis of the lone instance "Primary Button" of the component
    [button-primary], with a visible drop shadow and the solid fill
    (0.2, 0.4, 0.9), yields one component: a supported Button of variant
    "raised" and colour "primary" whose background colour is (51, 102, 230).
    The conversion rounds a half up: [0.9 * 255] is exactly [229.5] in
    binary64 and rounds to [230]; [228.5], [2.5] and [-2.5] round to [229],
    [3] and [-2]. *)
Theorem primary_button_scenario :
  exists response c,
    analyzeFigmaComponents primary_button_file = OK response /\
    FigmaFileResponse.components response = [c] /\
    FigmaComponent.type c = "Button" /\
    FigmaComponent.supportStatus c = supported /\
    FigmaComponent.properties c !! "variant" = Some (JString "raised") /\
    FigmaComponent.properties c !! "color" = Some (JString "primary") /\
    Styles.backgroundColor (FigmaComponent.styles c) =
      Some (RGB.mk 51%float 102%float 230%float) /\
    (0.9 * 255)%float = 229.5%float /\
    Math_round 229.5%float = 230%float /\
    Math_round 228.5%float = 229%float /\
    Math_round 2.5%float = 3%float /\
    Math_round (-2.5)%float = (-2)%float.
Proof.
  eexists. eexists.
  split; [vm_compute; reflexivity|].
  split; [reflexivity|].
  repeat split; vm_compute; reflexivity.
Qed.

(* ===================================================================== *)
(** ** C3: precedence of the classification rules *)
(* ===================================================================== *)

Lemma first_entry_find {V : Type} (hit : string -> V -> bool) (table : list (string * V)) :
  first_entry hit table = List.find (fun entry => hit (fst entry) (snd entry)) table.
Proof.
  induction table as [|[k v] tl IH]; simpl; [reflexivity|].
  destruct (hit k v); [reflexivity | exact IH].
Qed.

Lemma catalog_type_in_catalog (componentId : option string) (nameLower : string) :
  catalog_type componentId = in_catalog componentId nameLower.
Proof.
  unfold catalog_type, in_catalog.
  destruct componentId as [[|c tl]|]; [reflexivity| |reflexivity].
  cbn [truthy_string]. now rewrite first_entry_find.
Qed.

(** The keywords "checkbox" and "data table" hold "check" and "table": a
    name cannot hold the longer and miss the shorter. *)
Ltac absurd_includes :=
  match goal with
  | Hshort : includes ?s ?short = false, Hlong : includes ?s ?long = true |- _ =>
      rewrite (includes_trans s long short (eq_refl true) Hlong) in Hshort;
      discriminate Hshort
  end.

(** The code is the chain of the rules in their order. *)
Lemma detectComponentType_precedence (node : Node.t) :
  detectComponentType node = classify_by_precedence node.
Proof.
  unfold detectComponentType, classify_by_precedence.
  destruct (Node.name node) as [name|]; [|reflexivity].
  cbn [name_toLowerCase bind].
  rewrite (catalog_type_in_catalog _ (toLowerCase name)).
  unfold precedence, first_match, name_contains, tab_not_table.
  destruct (in_catalog (Node.componentId node) (toLowerCase name)); [reflexivity|].
  cbn [existsb].
  repeat match goal with
         | |- context [includes ?s ?k] =>
             destruct (includes s k) eqn:?; cbn [orb andb negb]; try reflexivity;
             try absurd_includes
         end.
Qed.

(** A rule that applies decides when no rule listed before it applies. *)
Lemma first_match_nth (rules : list rule) (componentId : option string) (nameLower : string)
    (k : nat) (r : rule) (widget : string) :
  nth_error rules k = Some r ->
  r componentId nameLower = Some widget ->
  (forall j r', j < k -> nth_error rules j = Some r' -> r' componentId nameLower = None) ->
  first_match rules componentId nameLower = Some widget.
Proof.
  revert k. induction rules as [|r0 tl IH]; intros k Hk Hr Hbefore.
  - destruct k; discriminate.
  - destruct k as [|k]; simpl in *.
    + injection Hk as ->. now rewrite Hr.
    + rewrite (Hbefore 0 r0); [|lia|reflexivity].
      apply (IH k); [exact Hk | exact Hr |].
      intros j r' Hj Hnth. apply (Hbefore (S j)); [lia | exact Hnth].
Qed.

(** C3.  For a named node, [detectComponentType] is the chain of the rules
    of the specification in their order, the first that applies deciding:
    a rule that applies while none listed before it does gives the type.
    The catalog lookup is the first of them, so an id of the Button catalog
    makes a Button whatever the name holds ("input" included), and a node
    named "Tab Button" outside the catalog is a Button, not Tabs. *)
Theorem classifier_precedence (node : Node.t) (name : string) :
  Node.name node = Some name ->
  detectComponentType node = classify_by_precedence node /\
  (forall k r widget,
      nth_error precedence k = Some r ->
      r (Node.componentId node) (toLowerCase name) = Some widget ->
      (forall j r', j < k -> nth_error precedence j = Some r' ->
                    r' (Node.componentId node) (toLowerCase name) = None) ->
      detectComponentType node = OK widget) /\
  (forall widget,
      in_catalog (Node.componentId node) (toLowerCase name) = Some widget ->
      detectComponentType node = OK widget) /\
  (forall id,
      Node.componentId node = Some id ->
      In id ["button-primary"; "button-secondary"; "button-flat"; "button-icon"] ->
      detectComponentType node = OK "Button") /\
  (name = "Tab Button" ->
   in_catalog (Node.componentId node) (toLowerCase name) = None ->
   detectComponentType node = OK "Button").
Proof.
  intros Hname.
  assert (Hfirst : forall widget,
             first_match precedence (Node.componentId node) (toLowerCase name) = Some widget ->
             detectComponentType node = OK widget).
  { intros widget H. rewrite detectComponentType_precedence.
    unfold classify_by_precedence. now rewrite Hname, H. }
  split; [apply detectComponentType_precedence|].
  split; [|split; [|split]].
  - intros k r widget Hk Hr Hbefore. apply Hfirst.
    now apply (first_match_nth _ _ _ k r).
  - intros widget H. apply Hfirst. cbn [precedence first_match]. now rewrite H.
  - intros id Hid Hin. apply Hfirst. rewrite Hid.
    simpl in Hin. destruct Hin as [<-|[<-|[<-|[<-|[]]]]]; reflexivity.
  - intros -> Hcat. apply Hfirst. cbn [precedence first_match]. rewrite Hcat. reflexivity.
Qed.

Lemma classifier_precedence_witness :
  detectComponentType tab_button = OK "Button" /\
  detectComponentType input_named_button = OK "Button" /\
  includes (toLowerCase "Search input") "input" = true /\
  includes (toLowerCase "Tab Button") "tab" = true.
Proof.
  split.
  - apply (proj2 (proj2 (proj2 (proj2
             (classifier_precedence tab_button "Tab Button" (eq_refl _)))))
           (eq_refl _) (eq_refl _)).
  - split.
    + apply (proj1 (proj2 (proj2 (proj2
               (classifier_precedence input_named_button "Search input" (eq_refl _)))))
             "button-flat" (eq_refl _)).
      simpl. tauto.
    + split; reflexivity.
Defined.

(* ===================================================================== *)
(** ** C4: component candidates *)
(* ===================================================================== *)

Lemma is_str_eq (x : option string) (lit : string) :
  is_str x lit = true <-> x = Some lit.
Proof.
  unfold is_str. destruct x as [s|]; [|split; discriminate].
  rewrite String.eqb_eq. split; [now intros -> | now intros [= ->]].
Qed.

Lemma has_candidate_keyword_In (name : string) :
  has_candidate_keyword (Some name) = true <->
  exists keyword, In keyword candidate_keywords /\ includes (toLowerCase name) keyword = true.
Proof. unfold has_candidate_keyword. apply existsb_exists. Qed.

(** On a frame the test is the keyword test of the name. *)
Lemma isComponentCandidate_frame (node : Node.t) :
  Node.type node = Some "FRAME" ->
  isComponentCandidate node =
  let* nameLower := name_toLowerCase (Node.name node) in
  OK (has_candidate_keyword (Node.name node)).
Proof.
  intros Htype. unfold isComponentCandidate. rewrite Htype.
  change (is_str (Some "FRAME") "COMPONENT") with false.
  change (is_str (Some "FRAME") "INSTANCE") with false.
  change (is_str (Some "FRAME") "FRAME") with true.
  cbn [orb].
  destruct (Node.name node) as [name|]; [|reflexivity].
  cbn [name_toLowerCase bind has_candidate_keyword existsb candidate_keywords].
  now rewrite orb_false_r, !orb_assoc.
Qed.

(** What the test returns when it returns. *)
Lemma isComponentCandidate_OK (node : Node.t) (candidate : bool) :
  isComponentCandidate node = OK candidate -> candidate = is_candidate node.
Proof.
  unfold isComponentCandidate, is_candidate.
  destruct (is_str (Node.type node) "COMPONENT" || is_str (Node.type node) "INSTANCE");
    [now intros [= <-]|].
  cbn [orb]. destruct (is_str (Node.type node) "FRAME"); [|now intros [= <-]].
  destruct (Node.name node) as [name|]; [|discriminate].
  cbn [name_toLowerCase bind andb has_candidate_keyword existsb candidate_keywords].
  intros [= <-]. now rewrite orb_false_r, !orb_assoc.
Qed.

(** C4 as stated fails on a group: "Button Group" holds a keyword and the
    specification makes it a candidate, the code does not. *)
Lemma group_keyword_is_no_candidate :
  ~ (isComponentCandidate button_group = OK true <-> candidate_by_spec button_group = true).
Proof.
  intros [_ H]. specialize (H (eq_refl _)). discriminate H.
Qed.

(** C4, as the code has it.  A node is a candidate exactly when its kind is
    COMPONENT or INSTANCE, or its kind is FRAME and its lowered name holds
    one of the ten keywords.  A node of kind GROUP is never a candidate,
    whatever its name. *)
Theorem candidate_iff (node : Node.t) :
  (isComponentCandidate node = OK true <->
   Node.type node = Some "COMPONENT" \/
   Node.type node = Some "INSTANCE" \/
   (Node.type node = Some "FRAME" /\
    exists name keyword,
      Node.name node = Some name /\
      In keyword ["button"; "input"; "field"; "card"; "checkbox"; "select";
                  "date"; "table"; "tab"; "carousel"] /\
      includes (toLowerCase name) keyword = true)) /\
  (Node.type node = Some "GROUP" -> isComponentCandidate node = OK false).
Proof.
  split.
  - destruct (is_str (Node.type node) "COMPONENT") eqn:Hc.
    { unfold isComponentCandidate. rewrite Hc. apply is_str_eq in Hc.
      split; [intros _; now left | reflexivity]. }
    destruct (is_str (Node.type node) "INSTANCE") eqn:Hi.
    { unfold isComponentCandidate. rewrite Hc, Hi. apply is_str_eq in Hi.
      split; [intros _; right; now left | reflexivity]. }
    assert (Hnc : Node.type node <> Some "COMPONENT").
    { intros H. apply is_str_eq in H. congruence. }
    assert (Hni : Node.type node <> Some "INSTANCE").
    { intros H. apply is_str_eq in H. congruence. }
    destruct (is_str (Node.type node) "FRAME") eqn:Hf.
    + apply is_str_eq in Hf. rewrite (isComponentCandidate_frame _ Hf).
      destruct (Node.name node) as [name|] eqn:Hname; cbn [name_toLowerCase bind].
      * split.
        -- intros [= H]. right; right. split; [exact Hf|].
           apply has_candidate_keyword_In in H as (keyword & Hin & Hk).
           exists name, keyword. auto.
        -- intros [H|[H|(_ & name' & keyword & [= <-] & Hin & Hk)]]; try congruence.
           f_equal. apply has_candidate_keyword_In. exists keyword. auto.
      * split; [discriminate|].
        intros [H|[H|(_ & name' & keyword & H & _)]]; congruence.
    + unfold isComponentCandidate. rewrite Hc, Hi, Hf. cbn [orb].
      split; [discriminate|].
      intros [H|[H|(H & _)]]; try congruence.
      apply is_str_eq in H. congruence.
  - intros Htype. unfold isComponentCandidate. rewrite Htype. reflexivity.
Qed.

Lemma candidate_iff_witness :
  isComponentCandidate button_group = OK false.
Proof.
  apply (proj2 (candidate_iff button_group)). reflexivity.
Defined.

(* ===================================================================== *)
(** ** C10: the shape detectors never decide the type of a frame *)
(* ===================================================================== *)

(** A name that holds a candidate keyword is matched by one of the rules 1
    to 10. *)
Lemma keyword_matches_a_rule (componentId : option string) (name : string) :
  has_candidate_keyword (Some name) = true ->
  exists widget, first_match precedence componentId (toLowerCase name) = Some widget.
Proof.
  unfold has_candidate_keyword. cbn [existsb candidate_keywords]. intros H.
  unfold precedence, first_match, name_contains, tab_not_table.
  destruct (in_catalog componentId (toLowerCase name)); [eauto|].
  cbn [existsb].
  repeat match goal with
         | |- context [includes ?s ?k] =>
             destruct (includes s k) eqn:?; cbn [orb andb negb]; eauto
         end.
  exfalso.
  repeat match type of H with
         | context [includes ?s ?k] =>
             destruct (includes s k) eqn:?; try discriminate; try absurd_includes
         end.
Qed.

(** C10.  The type of a frame that is a candidate is given by one of the
    rules 1 to 10 and depends only on its name and component id: any node
    with the same name and id gets the same type, whatever its shape.  So
    when no rule matches a candidate and the shape detectors decide, the
    node is a COMPONENT or an INSTANCE. *)
Theorem frames_typed_by_name :
  (forall node,
      Node.type node = Some "FRAME" ->
      isComponentCandidate node = OK true ->
      exists name widget,
        Node.name node = Some name /\
        first_match precedence (Node.componentId node) (toLowerCase name) = Some widget /\
        detectComponentType node = OK widget /\
        forall node',
          Node.name node' = Node.name node ->
          Node.componentId node' = Node.componentId node ->
          detectComponentType node' = OK widget) /\
  (forall node name,
      isComponentCandidate node = OK true ->
      Node.name node = Some name ->
      first_match precedence (Node.componentId node) (toLowerCase name) = None ->
      (Node.type node = Some "COMPONENT" \/ Node.type node = Some "INSTANCE") /\
      detectComponentType node = structural_fallback node).
Proof.
  split.
  - intros node Htype Hcand.
    rewrite (isComponentCandidate_frame _ Htype) in Hcand.
    destruct (Node.name node) as [name|] eqn:Hname; [|discriminate].
    cbn [name_toLowerCase bind] in Hcand. injection Hcand as Hkey.
    destruct (keyword_matches_a_rule (Node.componentId node) name Hkey) as (widget & Hrule).
    exists name, widget. split; [reflexivity|]. split; [exact Hrule|].
    assert (Hsame : forall node',
               Node.name node' = Some name ->
               Node.componentId node' = Node.componentId node ->
               detectComponentType node' = OK widget).
    { intros node' Hn Hc. rewrite detectComponentType_precedence.
      unfold classify_by_precedence. now rewrite Hn, Hc, Hrule. }
    split; [now apply Hsame | exact Hsame].
  - intros node name Hcand Hname Hnone. split.
    + apply isComponentCandidate_OK in Hcand. unfold is_candidate in Hcand.
      destruct (is_str (Node.type node) "COMPONENT") eqn:Hc; [left; now apply is_str_eq|].
      destruct (is_str (Node.type node) "INSTANCE") eqn:Hi; [right; now apply is_str_eq|].
      cbn [orb] in Hcand. symmetry in Hcand. apply andb_true_iff in Hcand as [_ Hkey].
      rewrite Hname in Hkey.
      destruct (keyword_matches_a_rule (Node.componentId node) name Hkey) as (widget & Hrule).
      congruence.
    + rewrite detectComponentType_precedence. unfold classify_by_precedence.
      now rewrite Hname, Hnone.
Qed.

Lemma frames_typed_by_name_witness :
  (exists name widget,
      Node.name tab_button = Some name /\
      first_match precedence (Node.componentId tab_button) (toLowerCase name) = Some widget /\
      detectComponentType tab_button = OK widget /\
      forall node',
        Node.name node' = Node.name tab_button ->
        Node.componentId node' = Node.componentId tab_button ->
        detectComponentType node' = OK widget) /\
  detectComponentType hero = structural_fallback hero.
Proof.
  split.
  - apply (proj1 frames_typed_by_name tab_button); reflexivity.
  - apply (proj2 frames_typed_by_name hero "Hero"); reflexivity.
Defined.

(* ===================================================================== *)
(** ** C5: properties whose extraction finds nothing *)
(* ===================================================================== *)

Lemma mapM_length {A B : Type} (f : A -> result B) (l : list A) (l' : list B) :
  mapM f l = OK l' -> length l' = length l.
Proof.
  revert l'. induction l as [|x tl IH]; simpl; intros l' H.
  - now injection H as <-.
  - apply bind_OK in H as (y & _ & H). apply bind_OK in H as (rest & Hrest & H).
    injection H as <-. simpl. f_equal. now apply IH.
Qed.

(** The options of a select are [null] or a list that is not empty. *)
Lemma extractSelectOptions_shape (node : Node.t) (options : JSValue) :
  extractSelectOptions node = OK options ->
  options = JNull \/ exists first rest, options = JArray (first :: rest).
Proof.
  unfold extractSelectOptions.
  destruct (Node.children node) as [children|]; [|intros [= <-]; now left].
  intros H. apply bind_OK in H as (optionNodes & _ & H).
  destruct (Nat.ltb 0 (length optionNodes)) eqn:Hlen; [|injection H as <-; now left].
  apply bind_OK in H as (texts & Htexts & H). injection H as <-.
  apply mapM_length in Htexts. apply Nat.ltb_lt in Hlen.
  destruct texts as [|first rest]; [simpl in Htexts; lia|].
  right. eauto.
Qed.

(** C5 as stated fails on a select without children: its option extraction
    yields [null], and the key [options] is there, holding [null]. *)
Lemma empty_select_keeps_options :
  detectComponentType empty_select = OK "Select" /\
  extractSelectOptions empty_select = OK JNull /\
  ~ (forall props,
        extractComponentProperties empty_select "Select" = OK props ->
        props !! "options" = None).
Proof.
  split; [reflexivity|]. split; [reflexivity|].
  intros H.
  specialize (H (<["options" := JNull]>
                   (<["appearance" := JString "standard"]>
                      (<["label" := JString "Select an option"]> ∅)))
                (eq_refl _)).
  rewrite lookup_insert_eq in H. discriminate H.
Qed.

(** C5, as the code has it.  A property is stored with whatever value its
    extraction returned, [null] included: the label and placeholder of an
    Input, the title and content of a Card and the options of a Select are
    always keys of the bag.  Only the subtitle of a Card is left out when
    its extraction finds nothing, and the label of a DatePicker or Select
    falls back to a fixed text.  The options of a Select are [null] or a
    non-empty list, never an empty one. *)
Theorem properties_keep_null (node : Node.t) (componentType : string)
    (props : gmap string JSValue) :
  extractComponentProperties node componentType = OK props ->
  (componentType = "Select" ->
   exists label options,
     extractTextContent node "label" = OK label /\
     extractSelectOptions node = OK options /\
     props !! "label" = Some (value_or label (JString "Select an option")) /\
     props !! "options" = Some options /\
     (options = JNull \/ exists first rest, options = JArray (first :: rest))) /\
  (componentType = "DatePicker" ->
   exists label,
     extractTextContent node "label" = OK label /\
     props !! "label" = Some (value_or label (JString "Choose a date"))) /\
  (componentType = "Input" ->
   exists label placeholder hint,
     extractTextContent node "label" = OK label /\
     extractTextContent node "placeholder" = OK placeholder /\
     (truthy placeholder = false -> extractTextContent node "hint" = OK hint) /\
     props !! "label" = Some label /\
     props !! "placeholder" = Some (if truthy placeholder then placeholder else hint)) /\
  (componentType = "Card" ->
   exists title subtitle content,
     extractTextContent node "title" = OK title /\
     extractTextContent node "subtitle" = OK subtitle /\
     extractTextContent node "content" = OK content /\
     props !! "title" = Some title /\
     props !! "content" = Some content /\
     props !! "subtitle" = if truthy subtitle then Some subtitle else None).
Proof.
  intros H. repeat split; intros ->; unfold extractComponentProperties in H;
    cbn [String.eqb Ascii.eqb Bool.eqb andb] in H.
  - apply bind_OK in H as (label & Hlabel & H).
    apply bind_OK in H as (appearance & _ & H).
    apply bind_OK in H as (options & Hoptions & H).
    injection H as <-. exists label, options.
    split; [exact Hlabel|]. split; [exact Hoptions|].
    split; [now simplify_map_eq|]. split; [now simplify_map_eq|].
    now apply extractSelectOptions_shape in Hoptions.
  - apply bind_OK in H as (label & Hlabel & H).
    apply bind_OK in H as (appearance & _ & H).
    injection H as <-. exists label. split; [exact Hlabel | now simplify_map_eq].
  - apply bind_OK in H as (appearance & _ & H).
    apply bind_OK in H as (label & Hlabel & H).
    apply bind_OK in H as (placeholder & Hplaceholder & H).
    apply bind_OK in H as (chosen & Hchosen & H).
    apply bind_OK in H as (required & _ & H).
    injection H as <-.
    exists label, placeholder, chosen.
    split; [exact Hlabel|]. split; [exact Hplaceholder|].
    destruct (truthy placeholder) eqn:Htruthy.
    + injection Hchosen as <-.
      split; [intros Hfalse; discriminate Hfalse|]. split; now simplify_map_eq.
    + split; [intros _; exact Hchosen|]. split; now simplify_map_eq.
  - apply bind_OK in H as (title & Htitle & H).
    apply bind_OK in H as (subtitle & Hsubtitle & H).
    apply bind_OK in H as (content & Hcontent & H).
    apply bind_OK in H as (actions & _ & H).
    injection H as <-. exists title, subtitle, content.
    split; [exact Htitle|]. split; [exact Hsubtitle|]. split; [exact Hcontent|].
    destruct (truthy subtitle); (split; [|split]); now simplify_map_eq.
Qed.

Lemma properties_keep_null_witness :
  exists label options,
    extractTextContent empty_select "label" = OK label /\
    extractSelectOptions empty_select = OK options /\
    (<["options" := JNull]>
       (<["appearance" := JString "standard"]>
          (<["label" := JString "Select an option"]> ∅)) : gmap string JSValue)
      !! "label" = Some (value_or label (JString "Select an option")) /\
    (<["options" := JNull]>
       (<["appearance" := JString "standard"]>
          (<["label" := JString "Select an option"]> ∅)) : gmap string JSValue)
      !! "options" = Some options /\
    (options = JNull \/ exists first rest, options = JArray (first :: rest)).
Proof.
  apply (proj1 (properties_keep_null empty_select "Select" _ (eq_refl _)) (eq_refl _)).
Defined.

(* ===================================================================== *)
(** ** C6: the disabled state of a button *)
(* ===================================================================== *)

(** The fill test of [isNodeDisabled] is [desaturated]. *)
Lemma isNodeDisabled_eq (node : Node.t) (name : string) :
  Node.name node = Some name ->
  isNodeDisabled node =
  OK (includes (toLowerCase name) "disabled" ||
      (truthy_number (Node.opacity node) &&
       num_lt (toNumber (Node.opacity node)) 0.5%float) ||
      desaturated node).
Proof.
  intros Hname. unfold isNodeDisabled, desaturated. rewrite Hname.
  cbn [name_toLowerCase bind].
  destruct (includes (toLowerCase name) "disabled"); [reflexivity|].
  cbn [orb].
  destruct (truthy_number (Node.opacity node) &&
            num_lt (toNumber (Node.opacity node)) 0.5%float); [reflexivity|].
  cbn [orb]. f_equal.
  destruct (Node.fills node) as [[|fill fills]|]; [reflexivity| |reflexivity].
  destruct (List.find Paint.shown (fill :: fills)) as [found|]; [|reflexivity].
  destruct (Paint.color found) as [c|]; [|reflexivity].
  now destruct (num_lt (saturation c) 0.1%float).
Qed.

(** C6 as stated fails on a button of opacity [0]: [0 < 0.5], yet the button
    is not disabled. *)
Lemma transparent_button_not_disabled :
  detectComponentType transparent_button = OK "Button" /\
  disabled_by_spec transparent_button "Submit Button" = true /\
  ~ (forall props,
        extractComponentProperties transparent_button "Button" = OK props ->
        (props !! "disabled" = Some (JBool true) <->
         disabled_by_spec transparent_button "Submit Button" = true)).
Proof.
  split; [reflexivity|]. split; [reflexivity|].
  intros H.
  specialize (H (<["icon" := JBool false]>
                   (<["disabled" := JBool false]>
                      (<["color" := JString "primary"]>
                         (<["variant" := JString "basic"]> ∅))))
                (eq_refl _)).
  destruct H as [_ H]. specialize (H (eq_refl _)).
  rewrite lookup_insert_ne, lookup_insert_eq in H by discriminate.
  discriminate H.
Qed.

(** C6, as the code has it.  The [disabled] property of a Button is true
    exactly when the lowered name holds "disabled", or the opacity is a
    number other than zero (and not [NaN]) below 0.5, or the first visible
    fill has a colour of saturation below 0.1.  An opacity of exactly [0]
    does not disable: with no "disabled" in the name and no desaturated
    fill, the property is false. *)
Theorem button_disabled_iff (node : Node.t) (name : string) (props : gmap string JSValue) :
  Node.name node = Some name ->
  extractComponentProperties node "Button" = OK props ->
  exists disabled,
    isNodeDisabled node = OK disabled /\
    props !! "disabled" = Some (JBool disabled) /\
    (disabled = true <->
     includes (toLowerCase name) "disabled" = true \/
     (truthy_number (Node.opacity node) = true /\
      num_lt (toNumber (Node.opacity node)) 0.5%float = true) \/
     desaturated node = true) /\
    (Node.opacity node = Some 0%float ->
     includes (toLowerCase name) "disabled" = false ->
     desaturated node = false ->
     disabled = false).
Proof.
  intros Hname H. unfold extractComponentProperties in H.
  cbn [String.eqb Ascii.eqb Bool.eqb andb] in H.
  apply bind_OK in H as (variant & _ & H).
  apply bind_OK in H as (color & _ & H).
  apply bind_OK in H as (disabled & Hdisabled & H).
  apply bind_OK in H as (icon & _ & H).
  injection H as <-. exists disabled.
  split; [exact Hdisabled|]. split; [now simplify_map_eq|].
  rewrite (isNodeDisabled_eq _ _ Hname) in Hdisabled. injection Hdisabled as <-.
  split.
  - rewrite !orb_true_iff, andb_true_iff. tauto.
  - intros -> -> ->. reflexivity.
Qed.

Lemma button_disabled_iff_witness :
  exists disabled,
    isNodeDisabled transparent_button = OK disabled /\
    (<["icon" := JBool false]>
       (<["disabled" := JBool false]>
          (<["color" := JString "primary"]>
             (<["variant" := JString "basic"]> ∅))) : gmap string JSValue)
      !! "disabled" = Some (JBool disabled) /\
    (disabled = true <->
     includes (toLowerCase "Submit Button") "disabled" = true \/
     (truthy_number (Node.opacity transparent_button) = true /\
      num_lt (toNumber (Node.opacity transparent_button)) 0.5%float = true) \/
     desaturated transparent_button = true) /\
    (Node.opacity transparent_button = Some 0%float ->
     includes (toLowerCase "Submit Button") "disabled" = false ->
     desaturated transparent_button = false ->
     disabled = false).
Proof.
  apply (button_disabled_iff transparent_button "Submit Button" _ (eq_refl _) (eq_refl _)).
Defined.

(* ===================================================================== *)
(** ** C8: when the analysis fails *)
(* ===================================================================== *)

(** *** Where an exception of a list callback comes from *)

Lemma someM_Throw {A : Type} (p : A -> result bool) (l : list A) (e : exn) :
  someM p l = Throw e -> exists x, In x l /\ p x = Throw e.
Proof.
  induction l as [|x tl IH]; simpl; [discriminate|].
  intros H. apply bind_Throw in H as [H | (hit & _ & H)].
  - exists x. auto.
  - destruct hit; [discriminate|]. destruct (IH H) as (y & Hy & Hp). exists y. auto.
Qed.

Lemma findM_Throw {A : Type} (p : A -> result bool) (l : list A) (e : exn) :
  findM p l = Throw e -> exists x, In x l /\ p x = Throw e.
Proof.
  induction l as [|x tl IH]; simpl; [discriminate|].
  intros H. apply bind_Throw in H as [H | (hit & _ & H)].
  - exists x. auto.
  - destruct hit; [discriminate|]. destruct (IH H) as (y & Hy & Hp). exists y. auto.
Qed.

Lemma filterM_Throw {A : Type} (p : A -> result bool) (l : list A) (e : exn) :
  filterM p l = Throw e -> exists x, In x l /\ p x = Throw e.
Proof.
  induction l as [|x tl IH]; simpl; [discriminate|].
  intros H. apply bind_Throw in H as [H | (hit & _ & H)].
  - exists x. auto.
  - apply bind_Throw in H as [H | (rest & _ & H)]; [|discriminate].
    destruct (IH H) as (y & Hy & Hp). exists y. auto.
Qed.

Lemma filterM_In {A : Type} (p : A -> result bool) (l l' : list A) (x : A) :
  filterM p l = OK l' -> In x l' -> In x l /\ p x = OK true.
Proof.
  revert l'. induction l as [|y tl IH]; simpl; intros l' H Hx.
  - injection H as <-. destruct Hx.
  - apply bind_OK in H as (hit & Hhit & H). apply bind_OK in H as (rest & Hrest & H).
    injection H as <-. destruct hit.
    + destruct Hx as [<-|Hx]; [auto|]. destruct (IH _ Hrest Hx). auto.
    + destruct (IH _ Hrest Hx). auto.
Qed.

Lemma mapM_Throw {A B : Type} (f : A -> result B) (l : list A) (e : exn) :
  mapM f l = Throw e -> exists x, In x l /\ f x = Throw e.
Proof.
  induction l as [|x tl IH]; simpl; [discriminate|].
  intros H. apply bind_Throw in H as [H | (y & _ & H)].
  - exists x. auto.
  - apply bind_Throw in H as [H | (rest & _ & H)]; [|discriminate].
    destruct (IH H) as (z & Hz & Hf). exists z. auto.
Qed.

Lemma name_toLowerCase_Throw (name : option string) (e : exn) :
  name_toLowerCase name = Throw e -> name = None.
Proof. destruct name; [discriminate | reflexivity]. Qed.

Lemma kids_of_children (node : Node.t) (children : list Node.t) :
  Node.children node = Some children -> Node.kids node = children.
Proof. unfold Node.kids. now intros ->. Qed.

(** Case analysis of a hypothesis [H : ... = Throw e] down to the reads of
    a name that can throw. *)
Ltac throw_cases H :=
  repeat first
    [ discriminate H
    | apply name_toLowerCase_Throw in H
    | match type of H with
      | bind _ _ = Throw _ => apply bind_Throw in H; destruct H as [H | (? & _ & H)]
      end
    | apply someM_Throw in H; destruct H as (? & ? & H); cbv beta in H
    | apply findM_Throw in H; destruct H as (? & ? & H); cbv beta in H
    | apply filterM_Throw in H; destruct H as (? & ? & H); cbv beta in H
    | match type of H with
      | orM ?a _ = Throw _ => unfold orM in H; destruct a eqn:?
      | andM ?a _ = Throw _ => unfold andM in H; destruct a eqn:?
      | (if ?c then _ else _) = Throw _ => destruct c eqn:?
      | (match ?x with _ => _ end) = Throw _ => destruct x eqn:?
      end ].

(** *** Each function throws only on a missing name *)

Lemma isComponentCandidate_Throw (node : Node.t) (e : exn) :
  isComponentCandidate node = Throw e -> Node.name node = None.
Proof. unfold isComponentCandidate. intros H. throw_cases H. exact H. Qed.

Lemma hasButtonLikeStructure_Throw (node : Node.t) (e : exn) :
  hasButtonLikeStructure node = Throw e -> Node.name node = None.
Proof. unfold hasButtonLikeStructure. intros H. throw_cases H; exact H. Qed.

Lemma child_unnamed (node child : Node.t) (children : list Node.t) :
  Node.children node = Some children -> In child children -> Node.name child = None ->
  unnamed_near node.
Proof.
  intros Hc Hin Hname. right. exists child. now rewrite (kids_of_children _ _ Hc).
Qed.

Lemma self_unnamed (node : Node.t) : Node.name node = None -> unnamed_near node.
Proof. now left. Qed.

Create HintDb unnamed.
#[local] Hint Resolve child_unnamed self_unnamed name_toLowerCase_Throw
  hasButtonLikeStructure_Throw : unnamed.

Lemma hasInputFieldStructure_Throw (node : Node.t) (e : exn) :
  hasInputFieldStructure node = Throw e -> unnamed_near node.
Proof.
  unfold hasInputFieldStructure. intros H. throw_cases H; eauto with unnamed.
Qed.
#[local] Hint Resolve hasInputFieldStructure_Throw : unnamed.

Lemma detectComponentType_Throw (node : Node.t) (e : exn) :
  detectComponentType node = Throw e -> unnamed_near node.
Proof.
  rewrite detectComponentType_precedence. unfold classify_by_precedence, structural_fallback.
  intros H. throw_cases H; eauto with unnamed.
Qed.
#[local] Hint Resolve detectComponentType_Throw : unnamed.

Lemma determineButtonVariant_Throw (node : Node.t) (e : exn) :
  determineButtonVariant node = Throw e -> Node.name node = None.
Proof.
  unfold determineButtonVariant, has_fill. intros H. throw_cases H; try exact H.
  unfold undefined_read in H. simpl in *. discriminate.
Qed.

Lemma determineColorTheme_Throw (node : Node.t) (e : exn) :
  determineColorTheme node = Throw e -> Node.name node = None.
Proof. unfold determineColorTheme. intros H. throw_cases H; exact H. Qed.

Lemma isNodeDisabled_Throw (node : Node.t) (e : exn) :
  isNodeDisabled node = Throw e -> Node.name node = None.
Proof. unfold isNodeDisabled. intros H. throw_cases H; exact H. Qed.

Lemma determineInputAppearance_Throw (node : Node.t) (e : exn) :
  determineInputAppearance node = Throw e -> Node.name node = None.
Proof. unfold determineInputAppearance. intros H. throw_cases H; exact H. Qed.

Lemma hasChildIcon_Throw (node : Node.t) (e : exn) :
  hasChildIcon node = Throw e -> unnamed_near node.
Proof. unfold hasChildIcon. intros H. throw_cases H; eauto with unnamed. Qed.

Lemma extractTextContent_Throw (node : Node.t) (purpose : string) (e : exn) :
  extractTextContent node purpose = Throw e -> unnamed_near node.
Proof. unfold extractTextContent. intros H. throw_cases H; eauto with unnamed. Qed.

Lemma isInputRequired_Throw (node : Node.t) (e : exn) :
  isInputRequired node = Throw e -> unnamed_near node.
Proof. unfold isInputRequired. intros H. throw_cases H; eauto with unnamed. Qed.

Lemma hasActionButtons_Throw (node : Node.t) (e : exn) :
  hasActionButtons node = Throw e -> unnamed_near node.
Proof. unfold hasActionButtons. intros H. throw_cases H; eauto with unnamed. Qed.

(** An option node passed the filter on its name, so it has one. *)
Lemma extractSelectOptions_Throw (node : Node.t) (e : exn) :
  extractSelectOptions node = Throw e -> unnamed_near node.
Proof.
  unfold extractSelectOptions.
  destruct (Node.children node) as [children|] eqn:Hchildren; [|discriminate].
  intros H. apply bind_Throw in H as [H | (optionNodes & Hfilter & H)].
  - throw_cases H; eauto with unnamed.
  - destruct (Nat.ltb 0 (length optionNodes)); [|discriminate].
    apply bind_Throw in H as [H | (texts & _ & H)]; [|discriminate].
    apply mapM_Throw in H as (option & Hin & H).
    destruct (filterM_In _ _ _ _ Hfilter Hin) as (_ & Hnamed).
    unfold option_text in H.
    destruct (Node.name option) as [name|]; [|discriminate Hnamed].
    throw_cases H.
Qed.

#[local] Hint Resolve determineButtonVariant_Throw determineColorTheme_Throw
  isNodeDisabled_Throw determineInputAppearance_Throw hasChildIcon_Throw
  extractTextContent_Throw isInputRequired_Throw hasActionButtons_Throw
  extractSelectOptions_Throw : unnamed.

Lemma extractComponentProperties_Throw (node : Node.t) (componentType : string) (e : exn) :
  extractComponentProperties node componentType = Throw e -> unnamed_near node.
Proof.
  unfold extractComponentProperties. intros H.
  repeat match type of H with
         | (if ?c then _ else _) = Throw _ => destruct c
         end;
    throw_cases H; eauto with unnamed.
Qed.
#[local] Hint Resolve extractComponentProperties_Throw isComponentCandidate_Throw : unnamed.

Lemma visit_Throw (node : Node.t) (components : list FigmaComponent.t) (e : exn) :
  visit node components = Throw e -> unnamed_near node.
Proof. unfold visit. intros H. throw_cases H; eauto with unnamed. Qed.

Lemma within_kid (n child root : Node.t) :
  In child (Node.kids root) -> within n child -> within n root.
Proof. intros Hin Hn. exact (within_child n root child Hin Hn). Qed.

(** *** The traversal throws only when a node of the tree has no name *)

Lemma forEachM_Throw {A S : Type} (f : A -> S -> result S) (l : list A) (s : S) (e : exn) :
  forEachM f l s = Throw e -> exists x s', In x l /\ f x s' = Throw e.
Proof.
  revert s. induction l as [|x tl IH]; simpl; intros s H; [discriminate|].
  apply bind_Throw in H as [H | (s' & _ & H)].
  - exists x, s. auto.
  - destruct (IH _ H) as (y & s'' & Hy & Hf). exists y, s''. auto.
Qed.

Lemma traverseFigmaNodes_Throw (node : Node.t) :
  forall components frameCount e,
    traverseFigmaNodes node components frameCount = Throw e ->
    exists n, within n node /\ Node.name n = None.
Proof.
  induction node as [node IH] using Node_ind_kids.
  intros components frameCount e H.
  rewrite traverseFigmaNodes_eq in H.
  apply bind_Throw in H as [H | (visited & _ & H)].
  - apply visit_Throw in H as [H | (child & Hin & H)].
    + exists node. split; [constructor | exact H].
    + exists child. split; [|exact H].
      apply (within_kid _ child); [exact Hin | constructor].
  - apply forEachM_Throw in H as (child & acc & Hin & H).
    rewrite List.Forall_forall in IH.
    apply (IH child Hin) in H as (n & Hn & Hname).
    exists n. split; [|exact Hname].
    apply (within_kid _ child); assumption.
Qed.

(** *** A nameless node of a named kind makes the traversal throw *)

Lemma visit_nameless (node : Node.t) (components : list FigmaComponent.t) :
  Node.name node = None -> named_kind node -> throws (visit node components).
Proof.
  unfold visit, isComponentCandidate, detectComponentType.
  intros Hname [Hkind | [Hkind | Hkind]]; rewrite Hkind, Hname; eexists; reflexivity.
Qed.

Lemma forEachM_throws {A S : Type} (f : A -> S -> result S) (l : list A) (x : A) :
  In x l -> (forall s, throws (f x s)) -> forall s, throws (forEachM f l s).
Proof.
  intros Hin Hx. induction l as [|y tl IH]; [destruct Hin|].
  intros s. simpl. destruct (f y s) as [s'|e] eqn:Hy; simpl.
  - destruct Hin as [->|Hin]; [|now apply IH].
    destruct (Hx s) as (e & He). congruence.
  - now exists e.
Qed.

Lemma traverseFigmaNodes_nameless (n root : Node.t) :
  within n root -> Node.name n = None -> named_kind n ->
  forall components frameCount, throws (traverseFigmaNodes root components frameCount).
Proof.
  intros Hwithin Hname Hkind.
  induction Hwithin as [|root child Hin _ IH]; intros components frameCount;
    rewrite traverseFigmaNodes_eq.
  - destruct (visit_nameless n components Hname Hkind) as (e & ->). now exists e.
  - destruct (visit root components) as [visited|e]; [|now exists e].
    cbn [bind]. apply (forEachM_throws _ _ child Hin). intros acc. apply IH.
Qed.

(** A node without a kind is passed over without a record and without an
    error. *)
Lemma visit_untyped (node : Node.t) (components : list FigmaComponent.t) :
  Node.type node = None -> visit node components = OK components.
Proof. unfold visit, isComponentCandidate. now intros ->. Qed.

Lemma all_named_eq (node : Node.t) :
  all_named node =
  match Node.name node with Some _ => true | None => false end &&
  forallb all_named (Node.kids node).
Proof.
  destruct node as [? ? ? ? kids ? ? ? ? ? ? ? ? ? ? ? ? ? ? ? ?].
  unfold Node.kids; simpl. f_equal.
  destruct kids as [cs|]; [|reflexivity].
  induction cs as [|c cs IHcs]; simpl; [reflexivity | now rewrite IHcs].
Qed.

Lemma all_named_within (root : Node.t) :
  all_named root = true -> forall n, within n root -> Node.name n <> None.
Proof.
  intros Hall n Hwithin. induction Hwithin as [|root child Hin _ IH].
  - rewrite all_named_eq in Hall. apply andb_true_iff in Hall as [Hname _].
    destruct (Node.name n); [discriminate | discriminate Hname].
  - apply IH. rewrite all_named_eq in Hall. apply andb_true_iff in Hall as [_ Hkids].
    rewrite forallb_forall in Hkids. now apply Hkids.
Qed.

(** C8 as stated fails on the document of the mock import: its root has
    neither a name nor a kind, and the analysis succeeds. *)
Lemma mock_document_is_analysed :
  ~ ((exists n, within n mock_document /\ (Node.name n = None \/ Node.type n = None)) ->
     throws (analyzeFigmaComponents mock_file)).
Proof.
  intros H. destruct H as (e & He).
  - exists mock_document. split; [constructor | now left].
  - vm_compute in He. discriminate He.
Qed.

(** C8, as the code has it.  The code has no validation of its own: it
    fails where it reads the name of a node that has none.  When the
    analysis fails, the error is the caught exception under the prefix
    "Failed to analyze Figma components: ", and the document is missing or
    some node of the tree has no name.  So a present document whose nodes
    all have names is analysed, whether or not the nodes have a kind: a node
    without a kind is passed over, no record and no error.  A nameless
    node of kind COMPONENT, INSTANCE or FRAME makes the whole analysis
    fail. *)
Theorem analysis_fails_on_missing_names (figmaData : FigmaData.t) :
  (forall e,
      analyzeFigmaComponents figmaData = Throw e ->
      (exists cause, e = Error ("Failed to analyze Figma components: " ++ cause)) /\
      (FigmaData.document figmaData = None \/
       exists document n,
         FigmaData.document figmaData = Some document /\
         within n document /\ Node.name n = None)) /\
  (forall document,
      FigmaData.document figmaData = Some document ->
      (forall n, within n document -> Node.name n <> None) ->
      is_ok (analyzeFigmaComponents figmaData)) /\
  (forall document n,
      FigmaData.document figmaData = Some document ->
      within n document ->
      Node.name n = None ->
      Node.type n = Some "COMPONENT" \/ Node.type n = Some "INSTANCE" \/
      Node.type n = Some "FRAME" ->
      throws (analyzeFigmaComponents figmaData)) /\
  (forall node components,
      Node.type node = None -> visit node components = OK components).
Proof.
  assert (Hfail : forall e,
             analyzeFigmaComponents figmaData = Throw e ->
             (exists cause, e = Error ("Failed to analyze Figma components: " ++ cause)) /\
             (FigmaData.document figmaData = None \/
              exists document n,
                FigmaData.document figmaData = Some document /\
                within n document /\ Node.name n = None)).
  { intros e. unfold analyzeFigmaComponents.
    destruct (FigmaData.document figmaData) as [document|].
    - destruct (traverseFigmaNodes document [] 0) as [components|cause] eqn:Hwalk;
        cbn [bind]; [discriminate|].
      intros [= <-]. split; [now exists (message cause)|].
      right. apply traverseFigmaNodes_Throw in Hwalk as (n & Hn & Hname).
      exists document, n. auto.
    - cbn [bind undefined_read]. intros [= <-]. split; [eexists; reflexivity | now left]. }
  split; [exact Hfail|]. split; [|split].
  - intros document Hdoc Hnamed.
    destruct (analyzeFigmaComponents figmaData) as [response|e] eqn:Hrun;
      [now exists response|].
    exfalso. destruct (Hfail e (eq_refl _)) as (_ & [Hnone | (d & n & Hd & Hn & Hname)]).
    + congruence.
    + rewrite Hdoc in Hd. injection Hd as <-. exact (Hnamed n Hn Hname).
  - intros document n Hdoc Hn Hname Hkind.
    unfold analyzeFigmaComponents. rewrite Hdoc.
    destruct (traverseFigmaNodes_nameless n document Hn Hname Hkind [] 0%Z) as (e & ->).
    cbn [bind]. eexists. reflexivity.
  - exact visit_untyped.
Qed.

Lemma analysis_fails_on_missing_names_witness :
  is_ok (analyzeFigmaComponents untyped_file) /\
  throws (analyzeFigmaComponents nameless_file).
Proof.
  split.
  - apply (proj1 (proj2 (analysis_fails_on_missing_names untyped_file))
             untyped_document (eq_refl _)).
    apply all_named_within. reflexivity.
  - apply (proj1 (proj2 (proj2 (analysis_fails_on_missing_names nameless_file)))
             _ nameless_instance (eq_refl _)).
    + apply (within_kid _ nameless_instance); [left; reflexivity | constructor].
    + reflexivity.
    + right. left. reflexivity.
Defined.

(* ===================================================================== *)
(** ** The walk: components are the candidate nodes in pre-order *)
(* ===================================================================== *)

Lemma preorder_eq (node : Node.t) :
  preorder node = node :: flat_map preorder (Node.kids node).
Proof.
  destruct node as [? ? ? ? kids ? ? ? ? ? ? ? ? ? ? ? ? ? ? ? ?].
  unfold Node.kids; simpl. f_equal.
  destruct kids as [cs|]; [|reflexivity].
  induction cs as [|c cs IHcs]; simpl; [reflexivity | now rewrite IHcs].
Qed.

(** [visit] pushes the record of the node when the node is a candidate and
    nothing otherwise. *)
Lemma visit_record (node : Node.t) (components components' : list FigmaComponent.t) :
  visit node components = OK components' ->
  exists pushed,
    mapM record_of (List.filter is_candidate [node]) = OK pushed /\
    components' = components ++ pushed.
Proof.
  unfold visit. intros H. apply bind_OK in H as (candidate & Hc & H).
  apply isComponentCandidate_OK in Hc. cbn [List.filter]. rewrite <- Hc.
  destruct candidate.
  - apply bind_OK in H as (componentType & Htype & H).
    apply bind_OK in H as (componentProps & Hprops & H).
    injection H as <-. eexists. split; [|reflexivity].
    cbn [mapM]. unfold record_of. rewrite Htype. cbn [bind]. rewrite Hprops. reflexivity.
  - injection H as <-. exists []. split; [reflexivity | now rewrite app_nil_r].
Qed.

Lemma mapM_app {A B : Type} (f : A -> result B) (l1 l2 : list A) (r1 r2 : list B) :
  mapM f l1 = OK r1 -> mapM f l2 = OK r2 -> mapM f (l1 ++ l2) = OK (r1 ++ r2).
Proof.
  revert r1. induction l1 as [|x l1 IH]; simpl; intros r1 H1 H2.
  - now injection H1 as <-.
  - apply bind_OK in H1 as (y & Hy & H1). apply bind_OK in H1 as (rest & Hrest & H1).
    injection H1 as <-. rewrite Hy. cbn [bind]. rewrite (IH rest Hrest H2). reflexivity.
Qed.

Lemma mapM_Forall2 {A B : Type} (f : A -> result B) (l : list A) (r : list B) :
  mapM f l = OK r -> Forall2 (fun x y => f x = OK y) l r.
Proof.
  revert r. induction l as [|x l IH]; simpl; intros r H.
  - injection H as <-. constructor.
  - apply bind_OK in H as (y & Hy & H). apply bind_OK in H as (rest & Hrest & H).
    injection H as <-. constructor; [exact Hy | now apply IH].
Qed.

(** The traversal appends, to the array it is given, the records of the
    candidate nodes of the tree in pre-order. *)
Lemma traverseFigmaNodes_records (node : Node.t) :
  forall components frameCount components',
    traverseFigmaNodes node components frameCount = OK components' ->
    exists pushed,
      mapM record_of (candidates node) = OK pushed /\
      components' = components ++ pushed.
Proof.
  induction node as [node IH] using Node_ind_kids.
  intros components frameCount components' H.
  rewrite traverseFigmaNodes_eq in H.
  apply bind_OK in H as (visited & Hvisit & Hkids).
  apply visit_record in Hvisit as (own & Hown & ->).
  unfold candidates. rewrite preorder_eq.
  change (node :: flat_map preorder (Node.kids node))
    with ([node] ++ flat_map preorder (Node.kids node)).
  rewrite List.filter_app.
  assert (Hrest : exists below,
             mapM record_of (List.filter is_candidate (flat_map preorder (Node.kids node)))
               = OK below /\
             components' = (components ++ own) ++ below).
  { revert Hkids. generalize (components ++ own) as acc.
    induction IH as [|child kids Hchild _ IHkids]; simpl; intros acc Hkids.
    - injection Hkids as <-. exists []. split; [reflexivity | now rewrite app_nil_r].
    - apply bind_OK in Hkids as (acc' & Hc & Hkids).
      apply Hchild in Hc as (first & Hfirst & ->).
      apply IHkids in Hkids as (rest & Hrest & ->).
      exists (first ++ rest). rewrite List.filter_app. split.
      + now apply mapM_app.
      + now rewrite app_assoc. }
  destruct Hrest as (below & Hbelow & ->).
  exists (own ++ below). split; [now apply mapM_app | now rewrite app_assoc].
Qed.

(** What a successful analysis lists: the records of the candidate nodes of
    the document, in pre-order. *)
Lemma analysis_records (figmaData : FigmaData.t) (response : FigmaFileResponse.t) :
  analyzeFigmaComponents figmaData = OK response ->
  exists document,
    FigmaData.document figmaData = Some document /\
    mapM record_of (candidates document) = OK (FigmaFileResponse.components response).
Proof.
  intros H. apply analyzeFigmaComponents_OK in H as (document & components & Hdoc & Hwalk & ->).
  apply traverseFigmaNodes_records in Hwalk as (pushed & Hpushed & ->).
  exists document. split; [exact Hdoc | exact Hpushed].
Qed.

Lemma record_of_fields (node : Node.t) (c : FigmaComponent.t) :
  record_of node = OK c ->
  FigmaComponent.figmaId c = Node.id node /\
  FigmaComponent.name c = Node.name node /\
  detectComponentType node = OK (FigmaComponent.type c) /\
  extractComponentProperties node (FigmaComponent.type c) = OK (FigmaComponent.properties c) /\
  FigmaComponent.angularComponent c = mapToAngularMaterialComponent (FigmaComponent.type c) /\
  FigmaComponent.supportStatus c = determineComponentSupportStatus (FigmaComponent.type c) /\
  FigmaComponent.styles c = extractComponentStyles node.
Proof.
  unfold record_of. intros H.
  apply bind_OK in H as (componentType & Htype & H).
  apply bind_OK in H as (componentProps & Hprops & H).
  injection H as <-. cbn. auto 10.
Qed.

Lemma Forall2_In_right {A B : Type} (R : A -> B -> Prop) (l : list A) (r : list B) (y : B) :
  Forall2 R l r -> In y r -> exists x, In x l /\ R x y.
Proof.
  induction 1 as [|x y' l r Hxy _ IH]; intros Hin; [destruct Hin|].
  destruct Hin as [->|Hin].
  - exists x. split; [now left | exact Hxy].
  - destruct (IH Hin) as (x' & Hx' & HR). exists x'. split; [now right | exact HR].
Qed.

(** Every component of a result is the record of a candidate node. *)
Lemma analysis_component_node (figmaData : FigmaData.t) (response : FigmaFileResponse.t)
    (c : FigmaComponent.t) :
  analyzeFigmaComponents figmaData = OK response ->
  In c (FigmaFileResponse.components response) ->
  exists document n,
    FigmaData.document figmaData = Some document /\
    In n (candidates document) /\ record_of n = OK c.
Proof.
  intros H Hc. destruct (analysis_records _ _ H) as (document & Hdoc & Hrec).
  apply mapM_Forall2 in Hrec.
  destruct (Forall2_In_right _ _ _ _ Hrec Hc) as (n & Hn & Hnc).
  exists document, n. auto.
Qed.

(** X1.  The components of an analysis result are the candidate nodes of
    the document in pre-order, one flat entry each, nested candidates
    included: ids and names are those of the nodes, in that order, and
    [totalComponents] is the number of candidate nodes. *)
Theorem components_are_candidates_in_preorder
    (figmaData : FigmaData.t) (response : FigmaFileResponse.t) :
  analyzeFigmaComponents figmaData = OK response ->
  exists document,
    FigmaData.document figmaData = Some document /\
    List.map FigmaComponent.figmaId (FigmaFileResponse.components response) =
      List.map Node.id (candidates document) /\
    List.map FigmaComponent.name (FigmaFileResponse.components response) =
      List.map Node.name (candidates document) /\
    Stats.totalComponents (FigmaFileResponse.stats response) =
      length (candidates document).
Proof.
  intros H. destruct (analysis_records _ _ H) as (document & Hdoc & Hrec).
  exists document. split; [exact Hdoc|].
  apply analyzeFigmaComponents_OK in H as (d & components & _ & _ & ->).
  cbn [FigmaFileResponse.components FigmaFileResponse.stats Stats.totalComponents] in *.
  rewrite (mapM_length _ _ _ Hrec).
  apply mapM_Forall2 in Hrec.
  induction Hrec as [|n c ns cs Hnc _ IHrec]; [now repeat split|].
  destruct IHrec as (Hids & Hnames & _).
  apply record_of_fields in Hnc as (Hid & Hname & _).
  cbn [List.map]. now rewrite Hid, Hname, Hids, Hnames.
Qed.

Lemma components_are_candidates_in_preorder_witness :
  exists response,
    analyzeFigmaComponents card_with_button_file = OK response /\
    List.map FigmaComponent.name (FigmaFileResponse.components response) =
      [Some "Profile Card"; Some "Follow Button"] /\
    Stats.totalComponents (FigmaFileResponse.stats response) = 2.
Proof.
  eexists. split; [vm_compute; reflexivity|].
  destruct (components_are_candidates_in_preorder card_with_button_file _ (eq_refl _))
    as (document & Hdoc & _ & Hnames & Htotal).
  injection Hdoc as <-. split; [exact Hnames | exact Htotal].
Defined.

(* ===================================================================== *)
(** ** Target mapping and the range of the classifier *)
(* ===================================================================== *)




Lemma in_catalog_range (componentId : option string) (nameLower widget : string) :
  in_catalog componentId nameLower = Some widget ->
  exists ids id,
    componentId = Some id /\ In (widget, ids) COMPONENT_TYPE_IDS /\ In id ids.
Proof.
  unfold in_catalog. destruct componentId as [id|]; [|discriminate].
  destruct (List.find _ COMPONENT_TYPE_IDS) as [[w ids]|] eqn:Hfind; [|discriminate].
  intros [= <-]. apply find_some in Hfind as [Hin Hmem]. cbn [snd] in Hmem.
  exists ids, id. split; [reflexivity|]. split; [exact Hin|].
  apply existsb_exists in Hmem as (x & Hx & Heq). apply String.eqb_eq in Heq. now subst.
Qed.

(** The widget a rule can name, and what naming it says of the name. *)
Lemma first_match_range (componentId : option string) (nameLower widget : string) :
  first_match precedence componentId nameLower = Some widget ->
  in_catalog componentId nameLower = Some widget \/
  (In widget ["Button"; "Input"; "Card"; "Checkbox"; "Select"; "DatePicker";
              "Tabs"; "Table"; "Carousel"] /\
   (widget = "Card" -> includes nameLower "card" = true)).
Proof.
  unfold precedence, first_match, name_contains, tab_not_table.
  destruct (in_catalog componentId nameLower) as [w|]; [intros [= <-]; now left|].
  cbn [existsb]. intros H. right.
  repeat match type of H with
         | context [includes ?s ?k] =>
             destruct (includes s k) eqn:?; cbn [orb andb negb] in H
         end;
    try discriminate H;
    injection H as <-; (split; [cbn; tauto | first [reflexivity | discriminate]]).
Qed.

Lemma structural_fallback_range (node : Node.t) (widget : string) :
  structural_fallback node = OK widget ->
  In widget ["Button"; "Input"; "Card"; "Custom"] /\
  (widget = "Card" -> hasCardStructure node = true).
Proof.
  unfold structural_fallback. intros H.
  apply bind_OK in H as (buttonLike & _ & H).
  destruct buttonLike; [injection H as <-; split; [cbn; tauto | discriminate]|].
  apply bind_OK in H as (inputLike & _ & H).
  destruct inputLike; [injection H as <-; split; [cbn; tauto | discriminate]|].
  destruct (hasCardStructure node); injection H as <-; (split; [cbn; tauto|]);
    [reflexivity | discriminate].
Qed.

(** X3.  The classifier returns one of eleven widget types, so every
    component of an analysis result has one of them. *)
Theorem widget_type_range :
  (forall node widget,
      detectComponentType node = OK widget -> In widget widget_types) /\
  (forall figmaData response c,
      analyzeFigmaComponents figmaData = OK response ->
      In c (FigmaFileResponse.components response) ->
      In (FigmaComponent.type c) widget_types).
Proof.
  assert (Hrange : forall node widget,
             detectComponentType node = OK widget -> In widget widget_types).
  { intros node widget. rewrite detectComponentType_precedence.
    unfold classify_by_precedence.
    destruct (Node.name node) as [name|]; [|discriminate].
    destruct (first_match precedence _ _) as [w|] eqn:Hrule.
    - intros [= <-]. apply first_match_range in Hrule as [Hcat | [Hin _]].
      + apply in_catalog_range in Hcat as (ids & id & _ & Hin & _).
        unfold COMPONENT_TYPE_IDS in Hin. cbn in Hin.
        repeat destruct Hin as [[= <- _]|Hin]; cbn; tauto.
      + cbn in Hin |- *. tauto.
    - intros H. apply structural_fallback_range in H as [Hin _]. cbn in Hin |- *. tauto. }
  split; [exact Hrange|].
  intros figmaData response c H Hc.
  destruct (analysis_component_node _ _ _ H Hc) as (document & n & _ & _ & Hn).
  apply record_of_fields in Hn as (_ & _ & Htype & _). exact (Hrange _ _ Htype).
Qed.

Lemma widget_type_range_witness : In "Select" widget_types.
Proof.
  apply (proj1 widget_type_range empty_select). reflexivity.
Defined.

(** X4.  Radio comes from the catalog alone: a named node is classified as
    Radio exactly when its component id is [radio-button] or
    [radio-option]; no name makes a Radio. *)
Theorem radio_only_by_catalog (node : Node.t) (name : string) :
  Node.name node = Some name ->
  (detectComponentType node = OK "Radio" <->
   exists id,
     Node.componentId node = Some id /\ In id ["radio-button"; "radio-option"]).
Proof.
  intros Hname. rewrite detectComponentType_precedence. unfold classify_by_precedence.
  rewrite Hname. split.
  - destruct (first_match precedence _ _) as [w|] eqn:Hrule.
    + intros [= ->]. apply first_match_range in Hrule as [Hcat | [Hin _]].
      * apply in_catalog_range in Hcat as (ids & id & Hid & Hin & Hmem).
        exists id. split; [exact Hid|].
        unfold COMPONENT_TYPE_IDS in Hin. cbn in Hin.
        repeat destruct Hin as [[= <-]|Hin]; try discriminate; [exact Hmem | destruct Hin].
      * cbn in Hin. repeat destruct Hin as [Hin|Hin]; try discriminate Hin. destruct Hin.
    + intros H. apply structural_fallback_range in H as [Hin _].
      cbn in Hin. repeat destruct Hin as [Hin|Hin]; try discriminate Hin. destruct Hin.
  - intros (id & -> & Hin). cbn in Hin.
    destruct Hin as [<-|[<-|[]]]; reflexivity.
Qed.

Lemma radio_only_by_catalog_witness : detectComponentType radio_choice = OK "Radio".
Proof.
  apply (proj2 (radio_only_by_catalog radio_choice "Choice" (eq_refl _))).
  exists "radio-option". split; [reflexivity | right; left; reflexivity].
Defined.

(** X5.  In the walk the card detector decides nothing.  A candidate that
    no rule matches is a COMPONENT or an INSTANCE, which the detector turns
    down for its kind, so its type is Button, Input or Custom; and a
    candidate classified as Card has a Card id or "card" in its name. *)
Theorem card_detector_never_decides (node : Node.t) (name : string) :
  isComponentCandidate node = OK true ->
  Node.name node = Some name ->
  (first_match precedence (Node.componentId node) (toLowerCase name) = None ->
   hasCardStructure node = false /\
   forall widget,
     detectComponentType node = OK widget -> In widget ["Button"; "Input"; "Custom"]) /\
  (detectComponentType node = OK "Card" ->
   in_catalog (Node.componentId node) (toLowerCase name) = Some "Card" \/
   includes (toLowerCase name) "card" = true).
Proof.
  intros Hcand Hname.
  assert (Hnone : first_match precedence (Node.componentId node) (toLowerCase name) = None ->
                  hasCardStructure node = false).
  { intros Hrule. apply isComponentCandidate_OK in Hcand. unfold is_candidate in Hcand.
    destruct (is_str (Node.type node) "FRAME") eqn:Hframe.
    - destruct (is_str (Node.type node) "COMPONENT" || is_str (Node.type node) "INSTANCE")
        eqn:Hkind.
      + apply is_str_eq in Hframe. rewrite Hframe in Hkind. discriminate Hkind.
      + cbn [orb andb] in Hcand. rewrite Hname in Hcand. symmetry in Hcand.
        destruct (keyword_matches_a_rule (Node.componentId node) name Hcand) as (w & Hw).
        congruence.
    - unfold hasCardStructure. rewrite Hframe.
      destruct (is_str (Node.type node) "GROUP") eqn:Hgroup; [|reflexivity].
      apply is_str_eq in Hgroup. rewrite Hgroup in Hcand. discriminate Hcand. }
  split.
  - intros Hrule. split; [now apply Hnone|].
    intros widget. rewrite detectComponentType_precedence. unfold classify_by_precedence.
    rewrite Hname, Hrule. intros H.
    apply structural_fallback_range in H as [Hin Hcard].
    cbn in Hin |- *. destruct Hin as [<-|[<-|[<-|[<-|[]]]]]; try tauto.
    rewrite (Hnone Hrule) in Hcard. discriminate (Hcard (eq_refl _)).
  - rewrite detectComponentType_precedence. unfold classify_by_precedence. rewrite Hname.
    destruct (first_match precedence _ _) as [w|] eqn:Hrule.
    + intros [= ->]. apply first_match_range in Hrule as [Hcat | [_ Hcard]];
        [now left | right; now apply Hcard].
    + intros H. apply structural_fallback_range in H as [_ Hcard].
      rewrite (Hnone (eq_refl _)) in Hcard. discriminate (Hcard (eq_refl _)).
Qed.

Lemma card_detector_never_decides_witness :
  hasCardStructure hero = false /\
  (forall widget,
      detectComponentType hero = OK widget -> In widget ["Button"; "Input"; "Custom"]).
Proof.
  apply (proj1 (card_detector_never_decides hero "Hero" (eq_refl _) (eq_refl _))).
  reflexivity.
Defined.

(* ===================================================================== *)
(** ** Variant, colour theme and appearance *)
(* ===================================================================== *)

Lemma by_name_range (table : list (string * string)) (nameLower value : string) :
  by_name table nameLower = Some value -> In value (List.map snd table).
Proof.
  unfold by_name. rewrite first_entry_find.
  destruct (List.find _ table) as [[k v]|] eqn:Hfind; [|discriminate].
  intros [= <-]. apply find_some in Hfind as [Hin _]. now apply (in_map snd) in Hin.
Qed.

Lemma by_id_range (table : list (string * string)) (componentId : option string)
    (value : string) :
  by_id table componentId = Some value -> In value (List.map snd table).
Proof.
  unfold by_id. destruct (truthy_string componentId); [|discriminate].
  destruct componentId as [id|]; [|discriminate]. apply by_name_range.
Qed.

(** X6.  A button variant is one of raised, stroked, basic, icon and flat.
    The component id is looked at before everything else: an id that holds
    "primary" makes a raised button whatever the name and the paints are,
    and without the name being read at all. *)
Theorem button_variant_range (node : Node.t) :
  (forall variant,
      determineButtonVariant node = OK variant ->
      In variant ["raised"; "stroked"; "basic"; "icon"; "flat"]) /\
  (forall id,
      Node.componentId node = Some id ->
      includes id "primary" = true ->
      determineButtonVariant node = OK "raised").
Proof.
  split.
  - intros variant. unfold determineButtonVariant.
    destruct (by_id BUTTON_VARIANTS _) as [v|] eqn:Hid.
    { intros [= <-]. apply by_id_range in Hid. cbn in Hid |- *. tauto. }
    destruct (Node.name node) as [name|]; [|discriminate].
    cbn [name_toLowerCase bind].
    destruct (by_name BUTTON_VARIANTS _) as [v|] eqn:Hname.
    { intros [= <-]. apply by_name_range in Hname. cbn in Hname |- *. tauto. }
    destruct (has_drop_shadow node); [intros [= <-]; cbn; tauto|].
    intros H. apply bind_OK in H as (stroked & _ & H).
    destruct stroked; [injection H as <-; cbn; tauto|].
    destruct (has_fill node); injection H as <-; cbn; tauto.
  - intros id Hid Hprimary. unfold determineButtonVariant, by_id. rewrite Hid.
    destruct id as [|c id]; [discriminate Hprimary|].
    cbn [truthy_string BUTTON_VARIANTS first_entry]. now rewrite Hprimary.
Qed.

Lemma button_variant_range_witness :
  determineButtonVariant
    (Node.mk None None None (Some "button-primary")
       None None None None None None None None None None None None None None None None None)
  = OK "raised".
Proof.
  apply (proj2 (button_variant_range _) "button-primary"); reflexivity.
Defined.

(** X7.  A colour theme is one of primary, accent and warn, and an input
    appearance one of outline, standard and fill. *)
Theorem theme_and_appearance_range (node : Node.t) :
  (forall color,
      determineColorTheme node = OK color -> In color ["primary"; "accent"; "warn"]) /\
  (forall appearance,
      determineInputAppearance node = OK appearance ->
      In appearance ["outline"; "standard"; "fill"]).
Proof.
  split.
  - intros color. unfold determineColorTheme.
    destruct (Node.name node) as [name|]; [|discriminate].
    cbn [name_toLowerCase bind].
    repeat match goal with
           | |- (if ?c then _ else _) = OK _ -> _ =>
               destruct c; [intros [= <-]; cbn; tauto|]
           end.
    intros [= <-].
    repeat match goal with
           | |- In (match ?x with _ => _ end) _ => destruct x
           | |- In (if ?c then _ else _) _ => destruct c
           end; cbn; tauto.
  - intros appearance. unfold determineInputAppearance.
    destruct (by_id INPUT_APPEARANCES _) as [v|] eqn:Hid.
    { intros [= <-]. apply by_id_range in Hid. cbn in Hid |- *. tauto. }
    destruct (Node.name node) as [name|]; [|discriminate].
    cbn [name_toLowerCase bind].
    destruct (by_name INPUT_APPEARANCES _) as [v|] eqn:Hname.
    { intros [= <-]. apply by_name_range in Hname. cbn in Hname |- *. tauto. }
    destruct (has_stroke node); [intros [= <-]; cbn; tauto|].
    destruct (has_fill node); intros [= <-]; cbn; tauto.
Qed.

Lemma theme_and_appearance_range_witness :
  In "primary" ["primary"; "accent"; "warn"].
Proof.
  apply (proj1 (theme_and_appearance_range primary_button)). reflexivity.
Defined.

(** A paint without an [opacity] field does not pass [fill.opacity > 0]:
    [undefined > 0] is false. *)
Lemma solid_fill_needs_opacity (fill : Paint.t) :
  Paint.opacity fill = None -> solid_fill fill = false.
Proof. unfold solid_fill. intros ->. now rewrite andb_false_r. Qed.

Lemma no_opacity_no_fill (fills : list Paint.t) :
  Forall (fun fill => Paint.opacity fill = None) fills ->
  existsb solid_fill fills = false /\ List.find solid_fill fills = None.
Proof.
  induction 1 as [|fill fills Hfill _ [IH1 IH2]]; [now split|].
  cbn. rewrite (solid_fill_needs_opacity _ Hfill). now split.
Qed.

(** X8.  Paints count as a fill only with an explicit positive [opacity].
    When no fill of a node has an [opacity] field, the node has no fill for
    the heuristics: a button is flat, and an input has the fill appearance,
    only by a keyword of its id or name, and the colour theme comes from
    the name alone, with primary as the default. *)
Theorem fills_without_opacity_are_ignored (node : Node.t) (name : string) :
  Node.name node = Some name ->
  (forall fills, Node.fills node = Some fills ->
                 Forall (fun fill => Paint.opacity fill = None) fills) ->
  has_fill node = false /\
  (determineButtonVariant node = OK "flat" ->
   by_id BUTTON_VARIANTS (Node.componentId node) = Some "flat" \/
   by_name BUTTON_VARIANTS (toLowerCase name) = Some "flat") /\
  (determineInputAppearance node = OK "fill" ->
   by_id INPUT_APPEARANCES (Node.componentId node) = Some "fill" \/
   by_name INPUT_APPEARANCES (toLowerCase name) = Some "fill") /\
  determineColorTheme node =
    OK (if includes (toLowerCase name) "primary" then "primary"
        else if includes (toLowerCase name) "accent" ||
                includes (toLowerCase name) "secondary" then "accent"
        else if includes (toLowerCase name) "warn" ||
                includes (toLowerCase name) "danger" ||
                includes (toLowerCase name) "error" then "warn"
        else "primary").
Proof.
  intros Hname Hfills.
  assert (Hno : has_fill node = false).
  { unfold has_fill. destruct (Node.fills node) as [fills|]; [|reflexivity].
    now apply no_opacity_no_fill, Hfills. }
  split; [exact Hno|]. split; [|split].
  - unfold determineButtonVariant. rewrite Hname.
    destruct (by_id BUTTON_VARIANTS _) as [v|]; [intros [= ->]; now left|].
    cbn [name_toLowerCase bind].
    destruct (by_name BUTTON_VARIANTS _) as [v|]; [intros [= ->]; now right|].
    destruct (has_drop_shadow node); [discriminate|].
    rewrite Hno. cbn [negb orM]. destruct (has_stroke node); cbn; discriminate.
  - unfold determineInputAppearance. rewrite Hname.
    destruct (by_id INPUT_APPEARANCES _) as [v|]; [intros [= ->]; now left|].
    cbn [name_toLowerCase bind].
    destruct (by_name INPUT_APPEARANCES _) as [v|]; [intros [= ->]; now right|].
    rewrite Hno. destruct (has_stroke node); discriminate.
  - unfold determineColorTheme. rewrite Hname. cbn [name_toLowerCase bind].
    repeat match goal with
           | |- (if ?c then _ else _) = OK (if ?c then _ else _) =>
               destruct c; [reflexivity|]
           end.
    f_equal. destruct (Node.fills node) as [[|fill fills]|] eqn:Hf; try reflexivity.
    destruct (no_opacity_no_fill _ (Hfills _ (eq_refl _))) as [_ Hfind].
    now rewrite Hfind.
Qed.

Lemma fills_without_opacity_are_ignored_witness :
  has_fill primary_button = false.
Proof.
  apply (fills_without_opacity_are_ignored primary_button "Primary Button" (eq_refl _)).
  intros fills [= <-]. repeat constructor.
Defined.

(* ===================================================================== *)
(** ** The property bag *)
(* ===================================================================== *)

(** X9.  Only five widget types have properties.  For every other type
    (Checkbox, Radio, Tabs, Table, Carousel, Custom and whatever else) the
    bag is empty and nothing of the node is read, so the extraction cannot
    fail.  A Button bag holds exactly the keys variant, color, disabled and
    icon. *)
Theorem property_keys (node : Node.t) :
  (forall componentType,
      ~ In componentType ["Button"; "Input"; "Card"; "DatePicker"; "Select"] ->
      extractComponentProperties node componentType = OK ∅) /\
  (forall props,
      extractComponentProperties node "Button" = OK props ->
      dom props = ({["variant"; "color"; "disabled"; "icon"]} : gset string)).
Proof.
  split.
  - intros componentType Hnot. unfold extractComponentProperties.
    repeat match goal with
           | |- (if String.eqb componentType ?lit then _ else _) = _ =>
               destruct (String.eqb_spec componentType lit) as [->|_];
                 [exfalso; apply Hnot; cbn; tauto|]
           end.
    reflexivity.
  - intros props H. unfold extractComponentProperties in H.
    cbn [String.eqb Ascii.eqb Bool.eqb andb] in H.
    apply bind_OK in H as (variant & _ & H).
    apply bind_OK in H as (color & _ & H).
    apply bind_OK in H as (disabled & _ & H).
    apply bind_OK in H as (icon & _ & H).
    injection H as <-. rewrite !dom_insert_L, dom_empty_L. set_solver.
Qed.

Lemma property_keys_witness :
  extractComponentProperties nameless_instance "Tabs" = OK ∅.
Proof.
  apply (proj1 (property_keys nameless_instance)).
  cbn. intros [H|[H|[H|[H|[H|[]]]]]]; discriminate H.
Defined.

(** *** The options of a select *)




(** *** Text by purpose *)

Lemma findM_none {A : Type} (p : A -> result bool) (l : list A) :
  Forall (fun x => p x = OK false) l -> findM p l = OK None.
Proof.
  induction 1 as [|x l Hx _ IH]; simpl; [reflexivity|]. now rewrite Hx.
Qed.

Lemma filter_none {A : Type} (q : A -> bool) (l : list A) :
  Forall (fun x => q x = false) l -> List.filter q l = [].
Proof.
  induction 1 as [|x l Hx _ IH]; simpl; [reflexivity|]. now rewrite Hx.
Qed.

(** X11.  A node none of whose children is a text has no text for any
    purpose: the result is [null], and no name of a child is read, so
    children without a name do no harm here. *)
Theorem no_text_child_no_text (node : Node.t) (purpose : string) :
  Forall (fun child => is_text child = false) (Node.kids node) ->
  extractTextContent node purpose = OK JNull.
Proof.
  unfold extractTextContent, Node.kids.
  destruct (Node.children node) as [children|]; [|reflexivity].
  intros Hnone.
  rewrite findM_none.
  2:{ eapply List.Forall_impl; [|exact Hnone]. cbv beta. intros child ->. reflexivity. }
  cbn [bind found_text].
  unfold largest_text, top_left_text, longest_text.
  rewrite (filter_none is_text _ Hnone).
  rewrite (filter_none (fun child => is_text child && _) children).
  2:{ eapply List.Forall_impl; [|exact Hnone]. cbv beta. intros child ->. reflexivity. }
  cbn [sort].
  now destruct (String.eqb purpose "title" || String.eqb purpose "heading"),
    (String.eqb purpose "label"), (String.eqb purpose "content").
Qed.

Lemma no_text_child_no_text_witness :
  extractTextContent
    (Node.bare None (Some "Toolbar") (Some "FRAME")
       (Some [Node.bare None None (Some "VECTOR") None]))
    "label" = OK JNull.
Proof.
  apply no_text_child_no_text. repeat constructor.
Defined.





(* ===================================================================== *)
(** ** The input-field detector *)
(* ===================================================================== *)

Lemma someM_true {A : Type} (p : A -> result bool) (l : list A) :
  someM p l = OK true -> exists x, In x l /\ p x = OK true.
Proof.
  induction l as [|x l IH]; simpl; [discriminate|].
  intros H. apply bind_OK in H as (hit & Hhit & H). destruct hit.
  - exists x. auto.
  - destruct (IH H) as (y & Hy & Hp). exists y. auto.
Qed.

(** X13.  A node with the structure of an input field has a text child and,
    apart from it, a rectangle or frame child: at least two children. *)
Theorem input_structure_needs_two_children (node : Node.t) :
  hasInputFieldStructure node = OK true ->
  exists label area,
    In label (Node.kids node) /\ In area (Node.kids node) /\
    Node.type label = Some "TEXT" /\
    (Node.type area = Some "RECTANGLE" \/ Node.type area = Some "FRAME") /\
    2 <= length (Node.kids node).
Proof.
  unfold hasInputFieldStructure, Node.kids.
  destruct (Node.children node) as [children|]; [|discriminate].
  intros H. apply bind_OK in H as (hasLabel & Hlabel & H).
  apply bind_OK in H as (hasInputArea & Harea & H).
  injection H as H. apply andb_true_iff in H as [-> ->].
  apply someM_true in Hlabel as (label & Hlin & Hl).
  apply someM_true in Harea as (area & Hain & Ha).
  assert (Htext : Node.type label = Some "TEXT").
  { apply is_str_eq. unfold andM in Hl.
    destruct (is_str (Node.type label) "TEXT"); [reflexivity | discriminate Hl]. }
  assert (Hkind : Node.type area = Some "RECTANGLE" \/ Node.type area = Some "FRAME").
  { unfold orM, andM in Ha.
    destruct (is_str (Node.type area) "RECTANGLE") eqn:Hr; [left; now apply is_str_eq|].
    destruct (is_str (Node.type area) "FRAME") eqn:Hf; [right; now apply is_str_eq|].
    discriminate Ha. }
  exists label, area. repeat (split; [assumption|]).
  assert (Hne : label <> area).
  { intros ->. rewrite Htext in Hkind. destruct Hkind; discriminate. }
  destruct children as [|x [|y l]]; cbn in *; [tauto | | lia].
  destruct Hlin as [<-|[]], Hain as [<-|[]]. congruence.
Qed.

Lemma input_structure_needs_two_children_witness :
  exists label area,
    In label (Node.kids labelled_box) /\ In area (Node.kids labelled_box) /\
    Node.type label = Some "TEXT" /\
    (Node.type area = Some "RECTANGLE" \/ Node.type area = Some "FRAME") /\
    2 <= length (Node.kids labelled_box).
Proof.
  apply (input_structure_needs_two_children labelled_box). reflexivity.
Defined.

(* ===================================================================== *)
(** ** The style bag *)
(* ===================================================================== *)

Lemma find_after_hidden (hidden : list Paint.t) (paint : Paint.t) (rest : list Paint.t) :
  Forall (fun p => Paint.visible p = Some false) hidden ->
  Paint.visible paint <> Some false ->
  List.find Paint.shown (hidden ++ paint :: rest) = Some paint.
Proof.
  intros Hhidden Hshown. induction Hhidden as [|p hidden Hp _ IH]; simpl.
  - unfold Paint.shown. destruct (Paint.visible paint) as [[|]|]; congruence.
  - unfold Paint.shown at 1. now rewrite Hp.
Qed.

Lemma first_visible_color_eq (hidden : list Paint.t) (paint : Paint.t) (rest : list Paint.t) :
  Forall (fun p => Paint.visible p = Some false) hidden ->
  Paint.visible paint <> Some false ->
  first_visible_color (Some (hidden ++ paint :: rest)) = option_map rgb_of (Paint.color paint).
Proof.
  intros Hhidden Hshown. unfold first_visible_color.
  rewrite (find_after_hidden _ _ rest Hhidden Hshown).
  destruct hidden; reflexivity.
Qed.

(** X14.  The background colour is that of the first fill that is not
    hidden ([visible: false]), and the border colour that of the first such
    stroke; the paints after it play no part.  When that paint has no
    colour the key is left out, even if a later paint has one. *)
Theorem colors_from_first_visible_paint (node : Node.t)
    (hidden : list Paint.t) (paint : Paint.t) (rest : list Paint.t) :
  Forall (fun p => Paint.visible p = Some false) hidden ->
  Paint.visible paint <> Some false ->
  (Node.fills node = Some (hidden ++ paint :: rest) ->
   Styles.backgroundColor (extractComponentStyles node) =
     option_map rgb_of (Paint.color paint)) /\
  (Node.strokes node = Some (hidden ++ paint :: rest) ->
   Styles.borderColor (extractComponentStyles node) =
     option_map rgb_of (Paint.color paint)).
Proof.
  intros Hhidden Hshown. unfold extractComponentStyles.
  split; intros ->; cbn [Styles.backgroundColor Styles.borderColor];
    now apply first_visible_color_eq.
Qed.

Lemma colors_from_first_visible_paint_witness :
  Styles.backgroundColor (extractComponentStyles two_fills) = None.
Proof.
  apply (proj1 (colors_from_first_visible_paint two_fills
                  [Paint.mk (Some "SOLID") (Some false) None
                     (Some (Color.mk 1%float 0%float 0%float None))]
                  (Paint.mk (Some "IMAGE") None None None)
                  [Paint.mk (Some "SOLID") None None
                     (Some (Color.mk 0%float 0%float 1%float None))]
                  ltac:(repeat constructor) ltac:(discriminate))).
  reflexivity.
Defined.

(** X15.  There is a box shadow exactly when an effect is a visible drop
    shadow, and it is made from the first of them.  A shadow without a
    colour gets black of alpha 0.25, one without an offset the offsets 0,
    one without a radius the radius 0. *)
Theorem box_shadow_defaults (node : Node.t) :
  (Styles.boxShadow (extractComponentStyles node) = None <->
   has_drop_shadow node = false) /\
  (forall shadow,
      Styles.boxShadow (extractComponentStyles node) = Some shadow ->
      exists effects effect,
        Node.effects node = Some effects /\
        List.find Effect.is_drop_shadow effects = Some effect /\
        shadow = shadow_of effect /\
        (Effect.color effect = None ->
         BoxShadow.color shadow = RGBA.mk 0%float 0%float 0%float 0.25%float) /\
        (Effect.offset effect = None ->
         BoxShadow.offsetX shadow = 0%float /\ BoxShadow.offsetY shadow = 0%float) /\
        (Effect.radius effect = None -> BoxShadow.radius shadow = 0%float)).
Proof.
  unfold extractComponentStyles, has_drop_shadow. cbn [Styles.boxShadow].
  destruct (Node.effects node) as [[|e effects]|]; cbn [existsb].
  - split; [tauto | discriminate].
  - split.
    + destruct (List.find Effect.is_drop_shadow (e :: effects)) as [found|] eqn:Hfind;
        cbn [option_map].
      * split; [discriminate|]. intros Hnone. apply find_some in Hfind as [Hin Hshadow].
        assert (Hex : existsb Effect.is_drop_shadow (e :: effects) = true)
          by (apply existsb_exists; eauto).
        cbn [existsb] in Hex. congruence.
      * split; [|reflexivity]. intros _.
        destruct (Effect.is_drop_shadow e || existsb Effect.is_drop_shadow effects)
          eqn:Hex; [|reflexivity].
        change (existsb Effect.is_drop_shadow (e :: effects) = true) in Hex.
        apply existsb_exists in Hex as (x & Hx & Hshadow).
        now rewrite (find_none _ _ Hfind x Hx) in Hshadow.
    + intros shadow.
      destruct (List.find Effect.is_drop_shadow (e :: effects)) as [found|] eqn:Hfind;
        [|discriminate].
      intros [= <-]. exists (e :: effects), found.
      split; [reflexivity|]. split; [exact Hfind|]. split; [reflexivity|].
      unfold shadow_of. cbn [BoxShadow.color BoxShadow.offsetX BoxShadow.offsetY
                             BoxShadow.radius].
      split; [now intros ->|]. split; [now intros ->|]. now intros ->.
  - split; [tauto | discriminate].
Qed.

Lemma box_shadow_defaults_witness :
  exists effects effect,
    Node.effects primary_button = Some effects /\
    List.find Effect.is_drop_shadow effects = Some effect /\
    shadow_of (Effect.mk (Some "DROP_SHADOW") (Some true) None None None) = shadow_of effect /\
    (Effect.color effect = None ->
     BoxShadow.color (shadow_of (Effect.mk (Some "DROP_SHADOW") (Some true) None None None))
       = RGBA.mk 0%float 0%float 0%float 0.25%float) /\
    (Effect.offset effect = None ->
     BoxShadow.offsetX (shadow_of (Effect.mk (Some "DROP_SHADOW") (Some true) None None None))
       = 0%float /\
     BoxShadow.offsetY (shadow_of (Effect.mk (Some "DROP_SHADOW") (Some true) None None None))
       = 0%float) /\
    (Effect.radius effect = None ->
     BoxShadow.radius (shadow_of (Effect.mk (Some "DROP_SHADOW") (Some true) None None None))
       = 0%float).
Proof.
  apply (proj2 (box_shadow_defaults primary_button)). reflexivity.
Defined.

Lemma when_truthy_Some (x : option number) (v : number) :
  when_truthy x = Some v -> PrimFloat.eqb v 0%float = false /\ is_nan v = false.
Proof.
  unfold when_truthy, truthy_number. destruct x as [w|]; [|discriminate].
  destruct (PrimFloat.eqb w 0%float) eqn:Hzero; [discriminate|].
  destruct (is_nan w) eqn:Hnan; [discriminate|]. now intros [= <-].
Qed.

(** X16.  The style bag never holds a zero: a width, height or border
    radius that is [0] (or [NaN]) is left out like a missing one, so a
    value that is present is a number other than zero. *)
Theorem no_zero_dimension (node : Node.t) (v : number) :
  Styles.width (extractComponentStyles node) = Some v \/
  Styles.height (extractComponentStyles node) = Some v \/
  Styles.borderRadius (extractComponentStyles node) = Some v ->
  PrimFloat.eqb v 0%float = false /\ is_nan v = false.
Proof.
  unfold extractComponentStyles.
  cbn [Styles.width Styles.height Styles.borderRadius].
  intros [H|[H|H]].
  - destruct (Node.absoluteBoundingBox node); [|discriminate]. now apply when_truthy_Some in H.
  - destruct (Node.absoluteBoundingBox node); [|discriminate]. now apply when_truthy_Some in H.
  - now apply when_truthy_Some in H.
Qed.

Lemma no_zero_dimension_witness :
  PrimFloat.eqb 120%float 0%float = false /\ is_nan 120%float = false.
Proof.
  apply (no_zero_dimension primary_button). left. reflexivity.
Defined.

(* ===================================================================== *)
(** ** The walk and its counter *)
(* ===================================================================== *)

Lemma forEachM_ext {A S : Type} (f g : A -> S -> result S) (l : list A) :
  Forall (fun x => forall s, f x s = g x s) l ->
  forall s, forEachM f l s = forEachM g l s.
Proof.
  induction 1 as [|x l Hx _ IH]; intros s; simpl; [reflexivity|].
  rewrite Hx. destruct (g x s); simpl; [apply IH | reflexivity].
Qed.

(** X17.  The counter handed to [traverseFigmaNodes] has no effect on what
    the walk returns or on whether it fails. *)
Theorem walk_ignores_frame_count (node : Node.t) :
  forall components frameCount frameCount',
    traverseFigmaNodes node components frameCount =
    traverseFigmaNodes node components frameCount'.
Proof.
  induction node as [node IH] using Node_ind_kids.
  intros components frameCount frameCount'. rewrite !traverseFigmaNodes_eq.
  destruct (visit node components) as [visited|e]; [|reflexivity].
  cbn [bind]. apply forEachM_ext.
  eapply List.Forall_impl; [|exact IH]. cbv beta. intros child Hchild acc. apply Hchild.
Qed.

(* ===================================================================== *)
(** ** The response schema *)
(* ===================================================================== *)

Lemma record_of_named (node : Node.t) (c : FigmaComponent.t) :
  record_of node = OK c -> exists name, FigmaComponent.name c = Some name.
Proof.
  intros H. apply record_of_fields in H as (_ & Hname & Htype & _).
  rewrite Hname. unfold detectComponentType in Htype.
  destruct (Node.name node) as [name|]; [eauto | discriminate Htype].
Qed.

(** X18.  Every component of an analysis result has a name, so the schema
    the routes check the result against can turn it down only for an id: the
    result conforms exactly when every candidate node of the document has
    an id. *)
Theorem response_conforms_iff_ids (figmaData : FigmaData.t) (response : FigmaFileResponse.t) :
  analyzeFigmaComponents figmaData = OK response ->
  Forall (fun c => FigmaComponent.name c <> None) (FigmaFileResponse.components response) /\
  exists document,
    FigmaData.document figmaData = Some document /\
    (response_conforms response = true <->
     Forall (fun n => Node.id n <> None) (candidates document)).
Proof.
  intros H. destruct (analysis_records _ _ H) as (document & Hdoc & Hrec).
  apply mapM_Forall2 in Hrec. unfold response_conforms.
  split.
  - clear Hdoc. induction Hrec as [|n c ns cs Hnc _ IHrec]; constructor; [|exact IHrec].
    destruct (record_of_named _ _ Hnc) as (name & ->). discriminate.
  - exists document. split; [exact Hdoc|].
    induction Hrec as [|n c ns cs Hnc _ IHrec]; [split; [constructor | reflexivity]|].
    cbn [forallb]. rewrite andb_true_iff, IHrec.
    destruct (record_of_named _ _ Hnc) as (name & Hname).
    apply record_of_fields in Hnc as (Hid & _).
    unfold component_conforms. rewrite Hid, Hname.
    split.
    + intros [Hc Hrest]. constructor; [|exact Hrest].
      destruct (Node.id n); [discriminate | discriminate Hc].
    + intros Hall. inversion Hall as [|? ? Hn Hrest]; subst. split; [|exact Hrest].
      destruct (Node.id n); [reflexivity | congruence].
Qed.

Lemma response_conforms_iff_ids_witness :
  exists response,
    analyzeFigmaComponents anonymous_button_file = OK response /\
    Forall (fun c => FigmaComponent.name c <> None)
           (FigmaFileResponse.components response) /\
    response_conforms response = false.
Proof.
  eexists. split; [vm_compute; reflexivity|].
  destruct (response_conforms_iff_ids anonymous_button_file _ (eq_refl _))
    as (Hnames & document & Hdoc & Hiff).
  split; [exact Hnames | reflexivity].
Defined.

(* ===================================================================== *)
(** ** The file key of a URL *)
(* ===================================================================== *)

Lemma indexOf_first (before : list string) (marker : string) (rest : list string) :
  ~ In marker before ->
  indexOf (before ++ marker :: rest) marker = Z.of_nat (length before).
Proof.
  induction before as [|y before IH]; intros Hnot.
  - cbn. now rewrite String.eqb_refl.
  - cbn [app indexOf length].
    destruct (String.eqb_spec y marker) as [->|_]; [exfalso; apply Hnot; now left|].
    rewrite IH by (intros Hin; apply Hnot; now right).
    destruct (Z.ltb_spec (Z.of_nat (length before)) 0); lia.
Qed.

Lemma key_after_next (before : list string) (marker key : string) (rest : list string) :
  ~ In marker before ->
  key_after (before ++ marker :: key :: rest) marker = Some key.
Proof.
  intros Hnot. unfold key_after.
  replace (array_includes _ marker) with true
    by (symmetry; apply array_includes_In, in_or_app; right; now left).
  rewrite (indexOf_first _ _ _ Hnot), length_app. cbn [length].
  destruct (Z.ltb_spec (Z.of_nat (length before) + 1)
              (Z.of_nat (length before + S (S (length rest))))); [|lia].
  replace (Z.to_nat (Z.of_nat (length before) + 1)) with (length before + 1) by lia.
  rewrite nth_error_app2 by lia.
  now replace (length before + 1 - length before) with 1 by lia.
Qed.

Lemma key_after_last (before : list string) (marker : string) :
  ~ In marker before -> key_after (before ++ [marker]) marker = None.
Proof.
  intros Hnot. unfold key_after.
  destruct (array_includes _ marker); [|reflexivity].
  rewrite (indexOf_first _ _ _ Hnot), length_app. cbn [length].
  destruct (Z.ltb_spec (Z.of_nat (length before) + 1) (Z.of_nat (length before + 1)));
    [lia | reflexivity].
Qed.

Lemma key_after_absent (parts : list string) (marker : string) :
  ~ In marker parts -> key_after parts marker = None.
Proof.
  intros Hnot. unfold key_after. apply array_includes_not_In in Hnot. now rewrite Hnot.
Qed.

Lemma key_after_In (parts : list string) (marker key : string) :
  key_after parts marker = Some key -> In key parts.
Proof.
  unfold key_after. destruct (array_includes parts marker); [|discriminate].
  destruct (_ <? _)%Z; [|discriminate]. apply nth_error_In.
Qed.

Lemma split_on_pieces (sep : ascii) (s piece : string) :
  In piece (split_on sep s) -> includes piece (String sep EmptyString) = false.
Proof.
  revert piece. induction s as [|c s IH]; cbn [split_on]; intros piece Hin.
  - destruct Hin as [<-|[]]. reflexivity.
  - destruct (Ascii.eqb_spec c sep) as [->|Hne].
    + destruct Hin as [<-|Hin]; [reflexivity | now apply IH].
    + destruct (split_on sep s) as [|first pieces] eqn:Hsplit.
      * destruct Hin as [<-|[]]. cbn.
        destruct (Ascii.ascii_dec sep c) as [->|_]; [congruence | reflexivity].
      * destruct Hin as [<-|Hin]; [|apply IH; now right].
        cbn [includes String.prefix].
        destruct (Ascii.ascii_dec sep c) as [->|_]; [congruence|].
        cbn [orb]. apply IH. now left.
Qed.

Section FileKeyFacts.

Variable pathname : string -> option string.

(** X19.  The key is the path segment after the first segment "file",
    whatever else the path holds ("design" and "proto" are looked for only
    when there is no such segment).  A path that ends in its only "file",
    without "design" and "proto", gives the fallback key. *)
Theorem file_key_follows_file (url path : string) (before : list string) :
  pathname url = Some path ->
  ~ In "file" before ->
  (forall key rest,
      split_on "/"%char path = before ++ "file" :: key :: rest ->
      extractFileKeyFromUrl pathname url = key) /\
  (split_on "/"%char path = before ++ ["file"] ->
   ~ In "design" before -> ~ In "proto" before ->
   extractFileKeyFromUrl pathname url = "figma-file-key").
Proof.
  intros Hpath Hnot. unfold extractFileKeyFromUrl. rewrite Hpath. split.
  - intros key rest ->. now rewrite key_after_next.
  - intros -> Hdesign Hproto. rewrite key_after_last by exact Hnot.
    rewrite !key_after_absent; [reflexivity| |].
    + intros Hin. apply in_app_or in Hin as [Hin|[Hin|[]]]; [tauto | discriminate].
    + intros Hin. apply in_app_or in Hin as [Hin|[Hin|[]]]; [tauto | discriminate].
Qed.

(** X20.  The key is the fallback "figma-file-key" or a segment of the
    path, so it holds no slash; a URL that does not parse gives the
    fallback. *)
Theorem file_key_is_a_segment (url : string) :
  (pathname url = None -> extractFileKeyFromUrl pathname url = "figma-file-key") /\
  (extractFileKeyFromUrl pathname url = "figma-file-key" \/
   exists path,
     pathname url = Some path /\
     In (extractFileKeyFromUrl pathname url) (split_on "/"%char path)) /\
  includes (extractFileKeyFromUrl pathname url) "/" = false.
Proof.
  unfold extractFileKeyFromUrl.
  destruct (pathname url) as [path|];
    [|split; [reflexivity | split; [now left | reflexivity]]].
  assert (Hkey : forall marker key,
             key_after (split_on "/"%char path) marker = Some key ->
             In key (split_on "/"%char path) /\ includes key "/" = false).
  { intros marker key H. apply key_after_In in H. split; [exact H|].
    now apply (split_on_pieces "/"%char path). }
  split; [discriminate|].
  destruct (key_after _ "file") as [k|] eqn:Hfile.
  { destruct (Hkey _ _ Hfile). split; [right; eauto | assumption]. }
  destruct (key_after _ "design") as [k|] eqn:Hdesign.
  { destruct (Hkey _ _ Hdesign). split; [right; eauto | assumption]. }
  destruct (key_after _ "proto") as [k|] eqn:Hproto.
  { destruct (Hkey _ _ Hproto). split; [right; eauto | assumption]. }
  split; [now left | reflexivity].
Qed.

End FileKeyFacts.

Lemma file_key_follows_file_witness :
  extractFileKeyFromUrl sample_pathname sample_url = "AbC123".
Proof.
  apply (proj1 (file_key_follows_file sample_pathname sample_url
                  "/file/AbC123/design/proto" [""] (eq_refl _)
                  ltac:(intros [H|[]]; discriminate H))
           "AbC123" ["design"; "proto"]).
  reflexivity.
Defined.

Lemma file_key_is_a_segment_witness :
  extractFileKeyFromUrl (fun _ => None) "not a url" = "figma-file-key".
Proof.
  apply (proj1 (file_key_is_a_segment (fun _ => None) "not a url")). reflexivity.
Defined.

(* ===================================================================== *)
(** ** The label of a node without a size *)
(* ===================================================================== *)

(** Nothing is below [NaN]. *)
Lemma num_lt_nan (x : number) : num_lt x nan = false.
Proof.
  unfold num_lt. rewrite ltb_spec.
  change (Prim2SF nan) with S754_nan.
  destruct (Prim2SF x) as [s|s| |s m e]; try destruct s; reflexivity.
Qed.

(** X21.  The position heuristic for labels compares the children with 0.3
    of [node.height] and 0.2 of [node.width].  On a node that has neither
    field both bounds are [NaN] and no child passes: the label is then found
    by name or not at all, so without a text child named "label" it is
    [null]. *)
Theorem label_needs_node_size (node : Node.t) (children : list Node.t) :
  Node.children node = Some children ->
  Node.height node = None ->
  Node.width node = None ->
  Forall (fun child =>
            is_text child = true ->
            exists name,
              Node.name child = Some name /\
              includes (toLowerCase name) "label" = false) children ->
  extractTextContent node "label" = OK JNull.
Proof.
  intros Hchildren Hheight Hwidth Hnames. unfold extractTextContent. rewrite Hchildren.
  rewrite findM_none.
  2:{ eapply List.Forall_impl; [|exact Hnames]. cbv beta. intros child Hchild.
      destruct (is_text child); [|reflexivity].
      destruct (Hchild (eq_refl _)) as (name & -> & Hnot).
      cbn [andM name_toLowerCase bind].
      change (toLowerCase "label") with "label". now rewrite Hnot. }
  cbn [bind found_text String.eqb Ascii.eqb Bool.eqb orb andb].
  unfold top_left_text. rewrite Hheight, Hwidth.
  change (toNumber None * 0.3)%float with nan.
  change (toNumber None * 0.2)%float with nan.
  rewrite filter_none; [reflexivity|].
  apply List.Forall_forall. intros child _.
  now rewrite !num_lt_nan, andb_false_r.
Qed.

Lemma label_needs_node_size_witness :
  extractTextContent card_with_button "label" = OK JNull.
Proof.
  apply (label_needs_node_size card_with_button _ (eq_refl _) (eq_refl _) (eq_refl _)).
  constructor; [|constructor; [|constructor]].
  - intros _. exists "Caption". split; reflexivity.
  - intros H. discriminate H.
Defined.

(* ===================================================================== *)
(** ** File key and file name of a result *)
(* ===================================================================== *)

(** X22.  A result never has an empty file key or file name: a missing or
    empty [id] gives "figma-file-1", a missing or empty [name] gives
    "Design System", and otherwise both are passed on unchanged. *)
Theorem file_key_and_name_defaults (figmaData : FigmaData.t) (response : FigmaFileResponse.t) :
  analyzeFigmaComponents figmaData = OK response ->
  FigmaFileResponse.fileKey response <> "" /\
  FigmaFileResponse.fileName response <> "" /\
  (forall id, FigmaData.id figmaData = Some id -> id <> "" ->
              FigmaFileResponse.fileKey response = id) /\
  (FigmaData.id figmaData = None \/ FigmaData.id figmaData = Some "" ->
   FigmaFileResponse.fileKey response = "figma-file-1") /\
  (forall name, FigmaData.name figmaData = Some name -> name <> "" ->
                FigmaFileResponse.fileName response = name) /\
  (FigmaData.name figmaData = None \/ FigmaData.name figmaData = Some "" ->
   FigmaFileResponse.fileName response = "Design System").
Proof.
  intros H. apply analyzeFigmaComponents_OK in H as (document & components & _ & _ & ->).
  cbn [FigmaFileResponse.fileKey FigmaFileResponse.fileName].
  assert (Hor : forall x fallback,
             fallback <> "" ->
             string_or x fallback <> "" /\
             (forall s, x = Some s -> s <> "" -> string_or x fallback = s) /\
             (x = None \/ x = Some "" -> string_or x fallback = fallback)).
  { intros x fallback Hfb. unfold string_or.
    destruct x as [[|c s]|]; cbn [truthy_string].
    - split; [exact Hfb|]. split; [intros s [= <-] Hs; congruence | reflexivity].
    - split; [discriminate|]. split; [now intros s' [= <-] | intros [H|H]; discriminate H].
    - split; [exact Hfb|]. split; [discriminate | reflexivity]. }
  destruct (Hor (FigmaData.id figmaData) "figma-file-1") as (H1 & H2 & H3); [discriminate|].
  destruct (Hor (FigmaData.name figmaData) "Design System") as (H4 & H5 & H6);
    [discriminate|].
  auto 10.
Qed.

Lemma file_key_and_name_defaults_witness :
  exists response,
    analyzeFigmaComponents anonymous_button_file = OK response /\
    FigmaFileResponse.fileKey response = "figma-file-1" /\
    FigmaFileResponse.fileName response = "Design System".
Proof.
  eexists. split; [vm_compute; reflexivity|].
  destruct (file_key_and_name_defaults anonymous_button_file _ (eq_refl _))
    as (_ & _ & _ & Hkey & _ & Hname).
  split; [apply Hkey | apply Hname]; now left.
Defined.

(* ===================================================================== *)
(** ** Letter case of the name *)
(* ===================================================================== *)

(** Unfolds the functions that read the node's own name and reduces the
    field reads on a renamed node. *)
Ltac on_renamed :=
  unfold isComponentCandidate, detectComponentType, hasButtonLikeStructure,
    hasInputFieldStructure, hasCardStructure, extractComponentProperties,
    determineButtonVariant, determineColorTheme, isNodeDisabled, hasChildIcon,
    determineInputAppearance, extractTextContent, isInputRequired, hasActionButtons,
    extractSelectOptions, has_drop_shadow, has_fill, has_stroke, top_left_text, with_name;
  cbn [Node.id Node.name Node.type Node.componentId Node.children Node.characters
       Node.absoluteBoundingBox Node.cornerRadius Node.opacity Node.fills Node.strokes
       Node.effects Node.style Node.x Node.y Node.width Node.height
       name_toLowerCase bind].

(** X23.  The name of a node counts without its letter case: two names
    that are equal once lowered give the same candidate test, the same
    widget type and the same properties. *)
Theorem name_case_is_ignored (node : Node.t) (a b : string) :
  toLowerCase a = toLowerCase b ->
  isComponentCandidate (with_name node (Some a)) =
    isComponentCandidate (with_name node (Some b)) /\
  detectComponentType (with_name node (Some a)) =
    detectComponentType (with_name node (Some b)) /\
  forall componentType,
    extractComponentProperties (with_name node (Some a)) componentType =
    extractComponentProperties (with_name node (Some b)) componentType.
Proof.
  intros Hlower. split; [|split; [|intros componentType]];
    on_renamed; rewrite Hlower; reflexivity.
Qed.

Lemma name_case_is_ignored_witness :
  detectComponentType (with_name lone_frame (Some "SUBMIT BUTTON")) =
  detectComponentType (with_name lone_frame (Some "Submit button")).
Proof.
  apply (name_case_is_ignored lone_frame "SUBMIT BUTTON" "Submit button"). reflexivity.
Defined.
